(** * textcrawler: a shallow embedding of crawler.go

    The development follows the layout of the Go file: the byte-string
    helpers of package [strings] and the two regular expressions the crawler
    compiles, the parsed document ([html.Node] / goquery selections), the
    data records, the breadcrumb builder, the article extractor, and the
    cache-aside page reader over a Redis store. *)

From Stdlib Require Import ZArith Lia Ascii String List.
From stdpp Require Import base list strings gmap.

Local Open Scope string_scope.
Local Open Scope list_scope.

(** ** Characters that cannot be written inside a string literal *)

Definition dquote : string := String (ascii_of_nat 34) EmptyString.
Definition newline : string := String (ascii_of_nat 10) EmptyString.
Definition tab : string := String (ascii_of_nat 9) EmptyString.

(** ** Package [strings], on byte strings *)

Module strings.

Fixpoint HasPrefix (s prefix : string) : bool :=
  match prefix, s with
  | EmptyString, _ => true
  | String _ _, EmptyString => false
  | String p prefix', String c s' =>
      if Ascii.eqb c p then HasPrefix s' prefix' else false
  end.

Fixpoint Contains (s substr : string) : bool :=
  HasPrefix s substr ||
  match s with
  | EmptyString => false
  | String _ s' => Contains s' substr
  end.

Fixpoint ContainsByte (cutset : string) (c : ascii) : bool :=
  match cutset with
  | EmptyString => false
  | String d cutset' => Ascii.eqb c d || ContainsByte cutset' c
  end.

Fixpoint TrimLeft (s cutset : string) : string :=
  match s with
  | EmptyString => EmptyString
  | String c s' => if ContainsByte cutset c then TrimLeft s' cutset else s
  end.

Fixpoint TrimRight (s cutset : string) : string :=
  match s with
  | EmptyString => EmptyString
  | String c s' =>
      match TrimRight s' cutset with
      | EmptyString =>
          if ContainsByte cutset c then EmptyString else String c EmptyString
      | kept => String c kept
      end
  end.

(** [strings.Trim(s, cutset)] for a cutset of ASCII bytes. *)
Definition Trim (s cutset : string) : string :=
  TrimRight (TrimLeft s cutset) cutset.

(** [splitFrom sep skip cur s]: [cur] is the piece being read; [skip] bytes
    of a separator that matched are still to be passed over. *)
Fixpoint splitFrom (sep : string) (skip : nat) (cur s : string) : list string :=
  match s with
  | EmptyString => [cur]
  | String c s' =>
      match skip with
      | S k => splitFrom sep k cur s'
      | O =>
          if HasPrefix s sep
          then cur :: splitFrom sep (String.length sep - 1) EmptyString s'
          else splitFrom sep 0 (cur +:+ String c EmptyString) s'
      end
  end.

(** [strings.Split(s, sep)] for a non-empty separator (the crawler only
    splits on a single space). *)
Definition Split (s sep : string) : list string := splitFrom sep 0 EmptyString s.

Definition Join (elems : list string) (sep : string) : string :=
  String.concat sep elems.

End strings.

(** ** The crawler's regular expressions *)

Module regexp.

(** RE2's [\s] is the class [\t\n\f\r ]. *)
Definition isSpace (c : ascii) : bool :=
  match nat_of_ascii c with
  | 9 | 10 | 12 | 13 | 32 => true
  | _ => false
  end.

(** Where the scan of [\s\s+] stands: outside a run, after one white byte
    (kept back, it is copied if the run ends there), or inside a run of two
    or more, whose replacement is already written. *)
Inductive runState := Outside | One (c : ascii) | Run.

Fixpoint replaceRuns (repl : string) (st : runState) (s : string) : string :=
  match s with
  | EmptyString =>
      match st with
      | One c0 => String c0 EmptyString
      | _ => EmptyString
      end
  | String c s' =>
      if isSpace c then
        match st with
        | Outside => replaceRuns repl (One c) s'
        | One _ => repl +:+ replaceRuns repl Run s'
        | Run => replaceRuns repl Run s'
        end
      else
        match st with
        | One c0 => String c0 (String c (replaceRuns repl Outside s'))
        | _ => String c (replaceRuns repl Outside s')
        end
  end.

(** [regexp.MustCompile(`\s\s+`).ReplaceAllString(src, repl)], for a
    replacement without [$] references. *)
Definition cleanSpaceRgx_ReplaceAllString (src repl : string) : string :=
  replaceRuns repl Outside src.

(** After the opening of a comment: the number of bytes up to and including
    the first [-->] that no [>] precedes. *)
Fixpoint commentTail (s : string) : option nat :=
  if strings.HasPrefix s "-->" then Some 3
  else match s with
       | EmptyString => None
       | String c s' =>
           if Ascii.eqb c ">" then None
           else option_map S (commentTail s')
       end.

(** Length of the match of [<!--[^>]*?-->] at the start of [s]. *)
Definition commentAt (s : string) : option nat :=
  if strings.HasPrefix s "<!--"
  then option_map (Nat.add 4) (commentTail (String.substring 4 (String.length s - 4) s))
  else None.

Fixpoint dropMatches (skip : nat) (s : string) : string :=
  match s with
  | EmptyString => EmptyString
  | String c s' =>
      match skip with
      | S k => dropMatches k s'
      | O =>
          match commentAt s with
          | Some n => dropMatches (n - 1) s'
          | None => String c (dropMatches 0 s')
          end
      end
  end.

(** [regexp.MustCompile(`<!--[^>]*?-->`).ReplaceAllString(src, "")]. *)
Definition p1_ReplaceAllString (src : string) : string := dropMatches 0 src.

End regexp.

(** ** Word counting *)

Definition removeSpaces (text : string) : string :=
  regexp.cleanSpaceRgx_ReplaceAllString (strings.Trim text " ") " ".

Definition wordCount (text : string) : nat :=
  length (strings.Split (removeSpaces text) " ").

(** ** The parsed document: [html.Node] trees and goquery selections *)

#[warnings="-register-all"]
Inductive Node :=
| TextNode (data : string)
| CommentNode (data : string)
| DoctypeNode (data : string)
| ElementNode (tag : string) (attrs : list (string * string)) (children : list Node).

Module goquery.

Definition Children (n : Node) : list Node :=
  match n with
  | ElementNode _ _ cs => cs
  | _ => []
  end.

(** [goquery.NodeName] of a one-node selection. *)
Definition NodeName (n : Node) : string :=
  match n with
  | ElementNode tag _ _ => tag
  | TextNode _ => "#text"
  | CommentNode _ => "#comment"
  | DoctypeNode data => data
  end.

(** [Selection.Text]: the text nodes below (and at) the node, in document
    order. *)
Fixpoint Text (n : Node) : string :=
  match n with
  | TextNode data => data
  | ElementNode _ _ cs =>
      (fix texts (l : list Node) : string :=
         match l with
         | [] => EmptyString
         | c :: l' => Text c +:+ texts l'
         end) cs
  | _ => EmptyString
  end.

Definition TextOf (sel : list Node) : string :=
  String.concat EmptyString (map Text sel).

Fixpoint lookupAttr (attrs : list (string * string)) (name : string) : option string :=
  match attrs with
  | [] => None
  | (k, v) :: attrs' => if String.eqb k name then Some v else lookupAttr attrs' name
  end.

(** [Selection.Attr]: the value and whether the attribute exists. *)
Definition Attr (n : Node) (name : string) : option string :=
  match n with
  | ElementNode _ attrs _ => lookupAttr attrs name
  | _ => None
  end.

Definition AttrOr (n : Node) (name defaultValue : string) : string :=
  match Attr n name with
  | Some v => v
  | None => defaultValue
  end.

(** A selector that is a group of tag names, such as [h1,h2,h3]. *)
Definition hasTag (tags : list string) (n : Node) : bool :=
  match n with
  | ElementNode tag _ _ => existsb (String.eqb tag) tags
  | _ => false
  end.

(** cascadia's [MatchAll]: the node itself and its descendants, pre-order. *)
Fixpoint MatchAll (tags : list string) (n : Node) : list Node :=
  (if hasTag tags n then [n] else []) ++
  match n with
  | ElementNode _ _ cs =>
      (fix below (l : list Node) : list Node :=
         match l with
         | [] => []
         | c :: l' => MatchAll tags c ++ below l'
         end) cs
  | _ => []
  end.

Definition FindIn (roots : list Node) (tags : list string) : list Node :=
  flat_map (MatchAll tags) roots.

(** [Selection.Find] from one node: matches among its descendants. *)
Definition Find (n : Node) (tags : list string) : list Node :=
  FindIn (Children n) tags.

(** What is left of a node once every descendant a [Find(tags).Remove()]
    selected is detached. *)
Fixpoint Removed (tags : list string) (n : Node) : Node :=
  match n with
  | ElementNode tag attrs cs =>
      ElementNode tag attrs
        ((fix kept (l : list Node) : list Node :=
            match l with
            | [] => []
            | c :: l' =>
                if hasTag tags c then kept l' else Removed tags c :: kept l'
            end) cs)
  | _ => n
  end.

(** The same removal seen from the document: only descendants of a node of
    the selection [within] are detached. *)
Fixpoint RemovedWithin (within tags : list string) (inside : bool) (n : Node) : Node :=
  match n with
  | ElementNode tag attrs cs =>
      let inside' := inside || existsb (String.eqb tag) within in
      ElementNode tag attrs
        ((fix kept (l : list Node) : list Node :=
            match l with
            | [] => []
            | c :: l' =>
                if inside' && hasTag tags c then kept l'
                else RemovedWithin within tags inside' c :: kept l'
            end) cs)
  | _ => n
  end.

End goquery.

(** A selection of one node together with the element ancestors
    [Selection.Parent] walks through, nearest first. *)
Fixpoint locate (n : Node) (up : list Node) (path : list nat) : option (Node * list Node) :=
  match path with
  | [] => Some (n, up)
  | i :: path' =>
      match goquery.Children n !! i with
      | Some c => locate c (n :: up) path'
      | None => None
      end
  end.

(** ** Data records *)

(** A Go slice: [None] is the nil slice, which JSON writes as [null]. *)
Definition slice (A : Type) : Type := option (list A).

Module go.

Definition elems {A} (s : slice A) : list A :=
  match s with
  | Some l => l
  | None => []
  end.

Definition append {A} (s : slice A) (x : A) : slice A := Some (elems s ++ [x]).

(** What a function call comes to: a result, or a run-time panic. *)
Inductive outcome (A : Type) : Type :=
| Returned (a : A)
| Panicked (msg : string).
Arguments Returned {A} a.
Arguments Panicked {A} msg.

(** [a[0:high]] of an array (or of a slice of that capacity): the bounds
    are checked at run time. *)
Definition sliceTo {A} (a : list A) (high : nat) : outcome (list A) :=
  if (high <=? length a)%nat then Returned (take high a)
  else Panicked "slice bounds out of range".

(** int64 arithmetic wraps around. *)
Definition wrap64 (z : Z) : Z := ((z + 2 ^ 63) mod 2 ^ 64 - 2 ^ 63)%Z.

End go.

Record LinkItem := { li_Title : string; li_Uri : string }.

Record Article := {
  a_Title : string;
  a_Uri : string;
  a_Content : string;
  a_Links : slice LinkItem
}.

Record Page := {
  p_Uri : string;
  p_Exists : bool;
  p_Cached : bool;
  p_Title : string;
  p_Articles : slice Article;
  p_Links : slice LinkItem
}.

Definition setCached (p : Page) : Page :=
  {| p_Uri := p_Uri p; p_Exists := p_Exists p; p_Cached := true;
     p_Title := p_Title p; p_Articles := p_Articles p; p_Links := p_Links p |}.

Record ClassesIdSet := {
  ParentPath : string;
  TagName : string;
  Id : string;
  Classes : list string;
  WordCount : Z
}.

Definition extractClasses (selection : Node) : list string :=
  match goquery.Attr selection "class" with
  | Some val => strings.Split val " "
  | None => []
  end.

Definition extractWords (selection : Node) : list string :=
  strings.Split (removeSpaces (goquery.Text selection)) " ".

Definition extractNumWords (selection : Node) : Z :=
  Z.of_nat (length (extractWords selection)).

(** The node's own fragment: the [parts] that [ToPath] joins. *)
Definition fragment (cs : ClassesIdSet) : string :=
  let parts := [TagName cs] in
  let parts := if (0 <? String.length (Id cs))%nat
               then parts ++ ["#" +:+ Id cs] else parts in
  let parts := if (0 <? length (Classes cs))%nat
               then parts ++ ["." +:+ strings.Join (Classes cs) "."] else parts in
  strings.Join parts "".

Definition ToPath (cs : ClassesIdSet) : string :=
  strings.Trim (strings.Join [ParentPath cs; fragment cs] " ") " ".

Definition isRootTag (tagName : string) : bool :=
  String.eqb tagName "body" || String.eqb tagName "html".

Definition noMarker (parentPath : string) : bool :=
  negb (strings.Contains parentPath ".") && negb (strings.Contains parentPath "#").

Fixpoint buildClassesIdSet (selection : Node) (ancestors : list Node) : ClassesIdSet :=
  let id := match goquery.Attr selection "id" with
            | Some val => val
            | None => ""
            end in
  let classes := extractClasses selection in
  let wordCount := extractNumWords selection in
  let tagName := goquery.NodeName selection in
  let parentPath :=
    match ancestors with
    | [] => ""
    | parent :: up =>
        let parentSet := buildClassesIdSet parent up in
        let parentPath := if isRootTag (TagName parentSet) then "" else ToPath parentSet in
        if noMarker parentPath then
          match up with
          | [] => parentPath
          | grandparent :: up' =>
              let parentSet := buildClassesIdSet grandparent up' in
              if isRootTag (TagName parentSet) then parentPath else ToPath parentSet
          end
        else parentPath
    end in
  {| Id := id; Classes := classes; WordCount := wordCount;
     TagName := tagName; ParentPath := parentPath |}.

(** The breadcrumb of a node: [ToPath] of its descriptor. *)
Definition buildPath (selection : Node) (ancestors : list Node) : string :=
  ToPath (buildClassesIdSet selection ancestors).

Definition notRoot (n : Node) : Prop := isRootTag (goquery.NodeName n) = false.

(** The fragment a node contributes, whatever its ancestors. *)
Definition nodeFragment (n : Node) : string :=
  fragment (buildClassesIdSet n []).

(** How a chain of nodes, nearest first, reads as a breadcrumb: each node
    appends its fragment to the breadcrumb of the chain above it, the way
    [ToPath] does. *)
Fixpoint breadcrumb (chain : list Node) : string :=
  match chain with
  | [] => ""
  | n :: above =>
      strings.Trim (strings.Join [breadcrumb above; nodeFragment n] " ") " "
  end.

(** ** Constructors of the records *)

Definition uriIsInLinkItems (links : slice LinkItem) (str : string) : bool :=
  existsb (fun link => String.eqb (li_Uri link) str) (go.elems links).

Definition makeArticle (title uri content : string) (links : slice LinkItem) : Article :=
  {| a_Title := title; a_Uri := uri; a_Content := content; a_Links := links |}.

Definition makePage (title uri : string) (exists_ : bool)
    (articles : slice Article) (links : slice LinkItem) : Page :=
  {| p_Title := title; p_Uri := uri; p_Exists := exists_;
     p_Articles := articles; p_Links := links; p_Cached := false |}.

Definition emptyPage : Page :=
  {| p_Title := ""; p_Uri := ""; p_Exists := false;
     p_Articles := None; p_Links := None; p_Cached := false |}.

(** The zero value of [Article], which fills a fresh [[maxNum]Article]. *)
Definition zeroArticle : Article :=
  {| a_Title := ""; a_Uri := ""; a_Content := ""; a_Links := None |}.

(** ** The browser and the library calls left abstract *)

Record URL := { Scheme : string; Host : string; Path : string }.

(** surf's [browser.Link]. *)
Record Link := { l_Url : URL; l_ID : string; l_Text : string }.

Record Browser := { Dom : list Node; PageUrl : string }.

(** Library functions the crawler calls and whose results it only passes on:
    - [Html]: goquery's [Selection.Html], the markup of the node's children
      through [html.Render]; [None] when rendering fails;
    - [Unmarshal]: [json.Unmarshal] into a [Page] variable holding the given
      value; the page afterwards, and whether the error is nil;
    - [ResolveUrl]: [url.Parse] of an href followed by the browser's
      [ResolveUrl] against the page's address; [None] when parsing fails. *)
Class Externals := {
  Html : Node -> option string;
  Unmarshal : string -> Page -> Page * bool;
  ResolveUrl : string -> string -> option URL
}.

Module surf.
Section Browser.
Context {E : Externals}.

(** [Browser.Links]: the anchors of the document whose href resolves. *)
Definition Links (bow : Browser) : list Link :=
  flat_map
    (fun s =>
       match goquery.Attr s "href" with
       | Some src =>
           match ResolveUrl (PageUrl bow) src with
           | Some href =>
               [{| l_Url := href; l_ID := goquery.AttrOr s "id" ""; l_Text := goquery.Text s |}]
           | None => []
           end
       | None => []
       end)
    (goquery.FindIn (Dom bow) ["a"]).

Definition Title (bow : Browser) : string :=
  goquery.TextOf (goquery.FindIn (Dom bow) ["title"]).

End Browser.
End surf.

(** ** Article extraction *)

Section Extraction.
Context {E : Externals}.

Definition maxNum : nat := 100.

Definition noiseTags : list string :=
  ["img"; "svg"; "embed"; "iframe"; "object"; "style"; "script"].

(** The inner loop of [readBlogArticles]: the anchors of one candidate,
    first href first. *)
Definition collectLinks (linkEls : list Node) : slice LinkItem :=
  fold_left
    (fun links linkEl =>
       match goquery.Attr linkEl "href" with
       | Some val =>
           let lk := {| li_Uri := val; li_Title := goquery.Text linkEl |} in
           if negb (uriIsInLinkItems links val) then go.append links lk else links
       | None => links
       end)
    linkEls None.

(** The body of the outer loop for the candidate at index [i]. *)
Definition extractInto (output : list Article) (i : nat) (article : Node) : list Article :=
  match Html article with
  | Some itemHtml =>
      let content :=
        strings.Trim (regexp.p1_ReplaceAllString itemHtml) (newline +:+ tab +:+ " ") in
      let titleEls := goquery.Find article ["h1"; "h2"; "h3"] in
      match titleEls with
      | titleElement :: _ =>
          let title := goquery.Text titleElement in
          let linkEl := goquery.Find titleElement ["a"] in
          match linkEl with
          | anchor :: _ =>
              let uri := goquery.AttrOr anchor "href" "" in
              let linkEls := goquery.Find article ["a"] in
              <[i := makeArticle title uri content (collectLinks linkEls)]> output
          | [] => output
          end
      | [] => output
      end
  | None => output
  end.

(** The [Article] the loop body stores for a candidate, if it stores one
    (used to state what [extractInto] does to the slot [i]). *)
Definition articleOf (article : Node) : option Article :=
  match Html article with
  | Some itemHtml =>
      match goquery.Find article ["h1"; "h2"; "h3"] with
      | titleElement :: _ =>
          match goquery.Find titleElement ["a"] with
          | anchor :: _ =>
              Some (makeArticle (goquery.Text titleElement)
                      (goquery.AttrOr anchor "href" "")
                      (strings.Trim (regexp.p1_ReplaceAllString itemHtml)
                         (newline +:+ tab +:+ " "))
                      (collectLinks (goquery.Find article ["a"])))
          | [] => None
          end
      | [] => None
      end
  | None => None
  end.

(** The candidates, once [articles.Find(noise).Remove()] has run. *)
Definition candidates (bow : Browser) : list Node :=
  map (goquery.Removed noiseTags) (goquery.FindIn (Dom bow) ["article"]).

(** The loop of [readBlogArticles], run over the first [n] indices, from an
    array of [maxNum] zero values. *)
Definition filled (articles : list Node) (n : nat) : list Article :=
  fold_left
    (fun output i =>
       if (i <? maxNum)%nat then
         match articles !! i with
         | Some article => extractInto output i article
         | None => output
         end
       else output)
    (seq 0 n)
    (replicate maxNum zeroArticle).

Definition fillOutput (articles : list Node) : list Article :=
  filled articles (length articles).

(** The browser, once [articles.Find(noise).Remove()] has run on its
    document. *)
Definition afterRemoval (bow : Browser) : Browser :=
  {| Dom := map (goquery.RemovedWithin ["article"] noiseTags false) (Dom bow);
     PageUrl := PageUrl bow |}.

(** The articles and the browser, whose document lost the noise elements. *)
Definition readBlogArticles (bow : Browser) : go.outcome (list Article * Browser) :=
  let articles := candidates bow in
  let bow' := afterRemoval bow in
  let numArticles := length articles in
  let output := fillOutput articles in
  match go.sliceTo output numArticles with
  | go.Returned out => go.Returned (out, bow')
  | go.Panicked msg => go.Panicked msg
  end.

End Extraction.

(** ** Package [encoding/json]: what [MarshalIndent] writes for a [Page] *)

Module json.

#[warnings="-register-all"]
Inductive Value :=
| Null
| Bool (b : bool)
| Str (s : string)
| Array (items : list Value)
| Object (fields : list (string * Value)).

Definition hexDigit (n : nat) : string :=
  String.substring n 1 "0123456789abcdef".

Definition inRange (lo hi : nat) (c : ascii) : bool :=
  let n := nat_of_ascii c in (lo <=? n)%nat && (n <=? hi)%nat.

(** Size of the UTF-8 sequence that starts [s], whose first byte is not
    ASCII; [None] where [utf8.DecodeRuneInString] reports an error. *)
Definition runeSize (s : string) : option nat :=
  match s with
  | String b0 (String b1 rest) =>
      let cont := inRange 128 191 in
      if inRange 194 223 b0 then (if cont b1 then Some 2 else None)
      else
        match rest with
        | String b2 rest' =>
            let three :=
              (inRange 224 224 b0 && inRange 160 191 b1)
              || ((inRange 225 236 b0 || inRange 238 239 b0) && cont b1)
              || (inRange 237 237 b0 && inRange 128 159 b1) in
            if three then (if cont b2 then Some 3 else None)
            else
              match rest' with
              | String b3 _ =>
                  let four :=
                    (inRange 240 240 b0 && inRange 144 191 b1)
                    || (inRange 241 243 b0 && cont b1)
                    || (inRange 244 244 b0 && inRange 128 143 b1) in
                  if four && cont b2 && cont b3 then Some 4 else None
              | EmptyString => None
              end
        | EmptyString => None
        end
  | _ => None
  end.

(** The bytes still owed to a sequence already decided: copied, or passed
    over (after the escape of U+2028 or U+2029). *)
Inductive pending := Copy (n : nat) | Drop (n : nat).

Fixpoint encodeFrom (p : pending) (s : string) : string :=
  match s with
  | EmptyString => EmptyString
  | String b s' =>
      match p with
      | Copy (S k) => String b (encodeFrom (Copy k) s')
      | Drop (S k) => encodeFrom (Drop k) s'
      | _ =>
          let n := nat_of_ascii b in
          if (n <? 128)%nat then
            (if String.eqb (String b EmptyString) dquote then "\" +:+ dquote
             else if Ascii.eqb b "\" then "\\"
             else if (n =? 10)%nat then "\n"
             else if (n =? 13)%nat then "\r"
             else if (n =? 9)%nat then "\t"
             else if (n <? 32)%nat || Ascii.eqb b "<" || Ascii.eqb b ">" || Ascii.eqb b "&"
                  then "\u00" +:+ hexDigit (n / 16) +:+ hexDigit (n mod 16)
             else String b EmptyString)
            +:+ encodeFrom (Copy 0) s'
          else
            match runeSize s with
            | None => "�" +:+ encodeFrom (Copy 0) s'
            | Some size =>
                if strings.HasPrefix s (String (ascii_of_nat 226) (String (ascii_of_nat 128) (String (ascii_of_nat 168) EmptyString)))
                then " " +:+ encodeFrom (Drop 2) s'
                else if strings.HasPrefix s (String (ascii_of_nat 226) (String (ascii_of_nat 128) (String (ascii_of_nat 169) EmptyString)))
                then " " +:+ encodeFrom (Drop 2) s'
                else String b (encodeFrom (Copy (size - 1)) s')
            end
      end
  end.

(** A Go string as a JSON string, HTML-escaped as [Marshal] does. *)
Definition encodeString (s : string) : string :=
  dquote +:+ encodeFrom (Copy 0) s +:+ dquote.

Fixpoint repeatString (s : string) (n : nat) : string :=
  match n with
  | O => EmptyString
  | S k => s +:+ repeatString s k
  end.

(** [Indent]'s line break: a newline, the prefix, [depth] indents. *)
Definition lineBreak (prefix indent : string) (depth : nat) : string :=
  newline +:+ prefix +:+ repeatString indent depth.

Fixpoint indentValue (prefix indent : string) (depth : nat) (v : Value) : string :=
  match v with
  | Null => "null"
  | Bool true => "true"
  | Bool false => "false"
  | Str s => encodeString s
  | Array [] => "[]"
  | Array (first :: others) =>
      "[" +:+ lineBreak prefix indent (S depth)
      +:+ indentValue prefix indent (S depth) first
      +:+ (fix more (l : list Value) : string :=
             match l with
             | [] => EmptyString
             | item :: l' =>
                 "," +:+ lineBreak prefix indent (S depth)
                 +:+ indentValue prefix indent (S depth) item +:+ more l'
             end) others
      +:+ lineBreak prefix indent depth +:+ "]"
  | Object [] => "{}"
  | Object ((key, first) :: others) =>
      "{" +:+ lineBreak prefix indent (S depth)
      +:+ encodeString key +:+ ": " +:+ indentValue prefix indent (S depth) first
      +:+ (fix more (l : list (string * Value)) : string :=
             match l with
             | [] => EmptyString
             | (k, item) :: l' =>
                 "," +:+ lineBreak prefix indent (S depth)
                 +:+ encodeString k +:+ ": "
                 +:+ indentValue prefix indent (S depth) item +:+ more l'
             end) others
      +:+ lineBreak prefix indent depth +:+ "}"
  end.

Definition ofSlice {A} (f : A -> Value) (s : slice A) : Value :=
  match s with
  | None => Null
  | Some l => Array (map f l)
  end.

Definition ofLinkItem (l : LinkItem) : Value :=
  Object [("title", Str (li_Title l)); ("uri", Str (li_Uri l))].

Definition ofArticle (a : Article) : Value :=
  Object [("title", Str (a_Title a)); ("uri", Str (a_Uri a));
          ("content", Str (a_Content a)); ("links", ofSlice ofLinkItem (a_Links a))].

Definition ofPage (p : Page) : Value :=
  Object [("uri", Str (p_Uri p)); ("exists", Bool (p_Exists p));
          ("cached", Bool (p_Cached p)); ("title", Str (p_Title p));
          ("articles", ofSlice ofArticle (p_Articles p));
          ("links", ofSlice ofLinkItem (p_Links p))].

(** [json.MarshalIndent(page, prefix, indent)]; marshalling a [Page]
    (strings, booleans and slices of such records) raises no error. *)
Definition MarshalIndent (data : Page) (prefix indent : string) : string :=
  indentValue prefix indent 0 (ofPage data).

End json.

(** ** The world outside: the Redis store, the web, and what was asked of them *)

Inductive Event :=
| EvGet (key : string)
| EvSet (key value : string) (expiration : Z)
| EvOpen (uri : string).

(** [kv] maps a key to its bytes and the expiration they were stored with
    (nanoseconds, as [time.Duration]); [up] is false while the server cannot
    be reached; [web] gives the document behind an address, if it opens;
    [log] lists the calls made so far, oldest first. *)
Record World := {
  up : bool;
  kv : gmap string (string * Z);
  web : string -> option (list Node);
  log : list Event
}.

Definition logged (e : Event) (w : World) : World :=
  {| up := up w; kv := kv w; web := web w; log := log w ++ [e] |}.

Definition stored (key value : string) (expiration : Z) (w : World) : World :=
  {| up := up w;
     kv := if up w then <[key := (value, expiration)]> (kv w) else kv w;
     web := web w; log := log w |}.

(** Computations that use the world and may panic. *)
Definition M (A : Type) : Type := World -> go.outcome (A * World).

#[export] Instance M_ret : MRet M := fun A a w => go.Returned (a, w).

#[export] Instance M_bind : MBind M := fun A B k m w =>
  match m w with
  | go.Returned (a, w') => k a w'
  | go.Panicked msg => go.Panicked msg
  end.

Definition lift {A} (r : go.outcome A) : M A :=
  fun w =>
    match r with
    | go.Returned a => go.Returned (a, w)
    | go.Panicked msg => go.Panicked msg
    end.

(** An [error] value: [None] is nil. *)
Definition error : Type := option string.

(** [err == nil]. *)
Definition isNil (err : error) : bool :=
  match err with
  | None => true
  | Some _ => false
  end.

Module redis.

(** [rdb.Get(ctx, key).Result()]. *)
Definition Get (key : string) : M (string * error) :=
  fun w =>
    let w' := logged (EvGet key) w in
    if up w then
      match kv w !! key with
      | Some (val, _) => go.Returned ((val, None), w')
      | None => go.Returned (("", Some "redis: nil"), w')
      end
    else go.Returned (("", Some "dial tcp: connection refused"), w').

(** [rdb.Set(ctx, key, value, expiration)], its status dropped. *)
Definition Set_ (key value : string) (expiration : Z) : M unit :=
  fun w => go.Returned (tt, stored key value expiration (logged (EvSet key value expiration) w)).

End redis.

Module time.
Definition Minute : Z := 60000000000.
(** [time.Duration(minutes) * time.Minute]. *)
Definition minutes (n : Z) : Z := go.wrap64 (n * Minute).
End time.

(** ** The cache-aside page reader *)

Section Cache.
Context {E : Externals}.

Definition setCache (key : string) (data : Page) (minutes : Z) : M bool :=
  let duration := time.minutes minutes in
  let ret_ := json.MarshalIndent data "" " " in
  _ ← redis.Set_ key ret_ duration;
  mret true.

Definition getCache (key : string) : M (Page * error) :=
  let page := emptyPage in
  '(val, err) ← redis.Get key;
  let page :=
    match err with
    | None => fst (Unmarshal val page)
    | Some _ => page
    end in
  mret (page, err).

(** [bow.Open(uri)]: the browser, when the page opened without error. *)
Definition Open (uri : string) : M (option Browser) :=
  fun w =>
    go.Returned
      (option_map (fun dom => {| Dom := dom; PageUrl := uri |}) (web w uri),
       logged (EvOpen uri) w).

(** The loop of [readLiveBlogPage] over [bow.Links()]. *)
Definition pageLinks (linkObjs : list Link) : slice LinkItem :=
  fold_left
    (fun links linkRef =>
       let path := Path (l_Url linkRef) in
       if (0 <? String.length path)%nat then
         let newLink := {| li_Uri := path; li_Title := l_Text linkRef |} in
         if negb (uriIsInLinkItems links path) then go.append links newLink else links
       else links)
    linkObjs None.

Definition readLiveBlogPage (uri : string) : M Page :=
  opened ← Open uri;
  match opened with
  | Some bow =>
      '(articles, bow) ← lift (readBlogArticles bow);
      let linkObjs := surf.Links bow in
      let title := surf.Title bow in
      mret (makePage title uri true (Some articles) (pageLinks linkObjs))
  | None => mret (makePage "" uri false None None)
  end.

(** The links the live reader iterates over: those of the opened document,
    after the extractor removed the noise elements of its articles. *)
Definition linksSeen (uri : string) (w : World) : list Link :=
  match web w uri with
  | Some dom => surf.Links (afterRemoval {| Dom := dom; PageUrl := uri |})
  | None => []
  end.

Definition readBlogPage (path scheme : string) (cached : bool) : M (Page * bool) :=
  let uri := scheme +:+ "://" +:+ path in
  let cacheKey := "page:" +:+ path in
  '(result, errVal) ← getCache cacheKey;
  if isNil errVal && cached then
    mret (setCached result, true)
  else
    data ← readLiveBlogPage uri;
    _ ← setCache cacheKey data 1440;
    mret (data, false).

End Cache.

(** ** Sample inputs *)

Module Sample.

(** Stand-ins for the library calls, to run the crawler on sample inputs:
    markup is rendered as the text of the node, every cached payload is
    rejected as malformed, and an href is taken as the path of its URL. *)
Definition externals : Externals :=
  {| Html := fun n => Some (goquery.Text n);
     Unmarshal := fun _ page => (page, false);
     ResolveUrl := fun _ href =>
       Some {| Scheme := "http"; Host := "example.com"; Path := href |} |}.

Definition page (body : list Node) : Node :=
  ElementNode "html" []
    [ElementNode "head" [] [ElementNode "title" [] [TextNode "Blog"]];
     ElementNode "body" [("class", "home")] body].

Definition document (body : list Node) : list Node :=
  [DoctypeNode "html"; page body].

Definition browserOn (body : list Node) : Browser :=
  {| Dom := document body; PageUrl := "http://example.com/blog" |}.

(** [n] empty [<article>] elements. *)
Definition crowded (n : nat) : Browser :=
  browserOn (replicate n (ElementNode "article" [] [])).

(** One article without a heading, one whose heading's anchor has no
    href, and one well-formed article. *)
Definition threeArticles : list Node :=
  [ElementNode "article" [] [ElementNode "p" [] [TextNode "no heading"]];
   ElementNode "article" []
     [ElementNode "h2" [] [ElementNode "a" [] [TextNode "T"]]];
   ElementNode "article" []
     [ElementNode "h2" [] [ElementNode "a" [("href", "/p1")] [TextNode "T"]];
      ElementNode "p" [] [TextNode "hello world";
                          ElementNode "a" [("href", "/p1")] [TextNode "again"];
                          ElementNode "a" [("href", "")] [TextNode "nowhere"];
                          ElementNode "a" [("href", "/p2")] [TextNode "out"]]]].

(** A paragraph under an anonymous [div] under [section#x], and one under
    three nested anonymous [div]s. *)
Definition nested : Node :=
  page
    [ElementNode "section" [("id", "x")]
       [ElementNode "div" []
          [ElementNode "p" [("class", "a b")] [TextNode "hello  world"]]];
     ElementNode "div" []
       [ElementNode "div" []
          [ElementNode "div" [] [ElementNode "p" [] []]]]].

Definition site (uri : string) : option (list Node) :=
  if String.eqb uri "http://example.com/blog" then Some (document threeArticles)
  else None.

(** The same stand-ins with a decoder that accepts every payload as the page
    of the blog. *)
Definition blogPage : Page :=
  {| p_Uri := "http://example.com/blog"; p_Exists := true; p_Cached := false;
     p_Title := "Blog"; p_Articles := Some []; p_Links := None |}.

Definition decoding : Externals :=
  {| Html := fun n => Some (goquery.Text n);
     Unmarshal := fun _ _ => (blogPage, true);
     ResolveUrl := fun _ href =>
       Some {| Scheme := "http"; Host := "example.com"; Path := href |} |}.

Definition quoted (s : string) : string := dquote +:+ s +:+ dquote.

(** The text Go writes for the page of an address that does not open, with
    one space per level. *)
Definition gonePageText : string :=
  strings.Join
    ["{";
     " " +:+ quoted "uri" +:+ ": " +:+ quoted "http://example.com/gone" +:+ ",";
     " " +:+ quoted "exists" +:+ ": false,";
     " " +:+ quoted "cached" +:+ ": false,";
     " " +:+ quoted "title" +:+ ": " +:+ quoted "" +:+ ",";
     " " +:+ quoted "articles" +:+ ": null,";
     " " +:+ quoted "links" +:+ ": null";
     "}"]
    newline.

(** A reachable store that holds nothing yet. *)
Definition emptyStore : World :=
  {| up := true; kv := ∅; web := site; log := [] |}.

(** A reachable store whose entry for the blog is not JSON. *)
Definition brokenStore : World :=
  {| up := true; kv := {[ "page:example.com/blog" := ("not json", 1%Z) ]};
     web := site; log := [] |}.

End Sample.

(** ** White space in a cleaned text *)

Definition startsSpace (s : string) : bool :=
  match s with
  | String a _ => regexp.isSpace a
  | EmptyString => false
  end.

(** Whether two adjacent bytes of [s] are both white space. *)
Fixpoint hasSpaceRun (s : string) : bool :=
  match s with
  | String a s' => (regexp.isSpace a && startsSpace s') || hasSpaceRun s'
  | EmptyString => false
  end.

(** ** Text nodes of a selection *)

(** [html.NodeType] of a node. *)
Definition NodeType (n : Node) : Z :=
  match n with
  | TextNode _ => 1
  | ElementNode _ _ _ => 3
  | CommentNode _ => 4
  | DoctypeNode _ => 5
  end.

(** [node.Data]: the text, the tag name, the comment or the doctype name. *)
Definition NodeData (n : Node) : string :=
  match n with
  | TextNode data | CommentNode data | DoctypeNode data => data
  | ElementNode tag _ _ => tag
  end.

Fixpoint hasTextNodes (nodes : list Node) : bool :=
  match nodes with
  | [] => false
  | node :: nodes' =>
      match NodeType node with
      | 1%Z =>
          let hasSelection := (2 <? String.length (removeSpaces (NodeData node)))%nat in
          if hasSelection then true else hasTextNodes nodes'
      | _ => hasTextNodes nodes'
      end
  end.

(** ** Page statistics *)

Record CountItem := { Key : string; Value : Z }.

Record PageStats := {
  ps_Uri : string;
  ps_Exists : bool;
  ps_Counts : slice CountItem;
  ps_Words : slice string
}.

Definition newPageStats (uri : string) (exists_ : bool) : PageStats :=
  {| ps_Uri := uri; ps_Exists := exists_; ps_Counts := None; ps_Words := None |}.

(** The method updates the receiver and returns a copy of it: the new value
    of the receiver is the result. *)
Definition addCountItem (ps : PageStats) (key : string) (val : Z) : PageStats :=
  let ci := {| Key := key; Value := val |} in
  {| ps_Uri := ps_Uri ps; ps_Exists := ps_Exists ps;
     ps_Counts := go.append (ps_Counts ps) ci; ps_Words := ps_Words ps |}.

Definition setWords (ps : PageStats) (words : slice string) : PageStats :=
  {| ps_Uri := ps_Uri ps; ps_Exists := ps_Exists ps;
     ps_Counts := ps_Counts ps; ps_Words := words |}.

(** ** The document as goquery mutates it *)

Module dom.

(** A node of the parsed document is known by the child indices that lead to
    it from the document node, together with what the parser put there.
    [Remove] detaches nodes from their parents; the addresses detached so far
    are the state of the document. *)
Definition ref : Type := list nat.
Definition pointer : Type := (ref * Node)%type.

Fixpoint sameRef (a b : ref) : bool :=
  match a, b with
  | [], [] => true
  | i :: a', j :: b' => (i =? j)%nat && sameRef a' b'
  | _, _ => false
  end.

Definition isIn (r : ref) (refs : list ref) : bool := existsb (sameRef r) refs.

(** The node as it stands: without what was detached below it. *)
Fixpoint current (detached : list ref) (r : ref) (n : Node) : Node :=
  match n with
  | ElementNode tag attrs cs =>
      ElementNode tag attrs
        ((fix kept (i : nat) (l : list Node) : list Node :=
            match l with
            | [] => []
            | c :: l' =>
                if isIn (r ++ [i]) detached then kept (S i) l'
                else current detached (r ++ [i]) c :: kept (S i) l'
            end) 0%nat cs)
  | _ => n
  end.

(** cascadia's [MatchAll] over what is still attached: the node and its
    descendants, pre-order. *)
Fixpoint matchAll (detached : list ref) (tags : list string) (r : ref) (n : Node)
    : list pointer :=
  (if goquery.hasTag tags n then [(r, n)] else []) ++
  match n with
  | ElementNode _ _ cs =>
      (fix below (i : nat) (l : list Node) : list pointer :=
         match l with
         | [] => []
         | c :: l' =>
             (if isIn (r ++ [i]) detached then []
              else matchAll detached tags (r ++ [i]) c)
             ++ below (S i) l'
         end) 0%nat cs
  | _ => []
  end.

(** The matches among the children [cs] of the node at [r] and below them. *)
Fixpoint matchBelow (detached : list ref) (tags : list string) (r : ref)
    (i : nat) (cs : list Node) : list pointer :=
  match cs with
  | [] => []
  | c :: cs' =>
      (if isIn (r ++ [i]) detached then []
       else matchAll detached tags (r ++ [i]) c)
      ++ matchBelow detached tags r (S i) cs'
  end.

Fixpoint appendWithoutDuplicates (target nodes : list pointer) : list pointer :=
  match nodes with
  | [] => target
  | n :: nodes' =>
      if isIn (fst n) (map fst target) then appendWithoutDuplicates target nodes'
      else appendWithoutDuplicates (target ++ [n]) nodes'
  end.

(** [Document.Find]: from the document node, whose children are [roots]. *)
Definition FindInDocument (roots : list Node) (detached : list ref)
    (tags : list string) : list pointer :=
  appendWithoutDuplicates [] (matchBelow detached tags [] 0 roots).

(** [Selection.Find]: for each node of the selection in turn, the matches
    among its descendants that were not selected yet. *)
Definition Find (detached : list ref) (selection : list pointer)
    (tags : list string) : list pointer :=
  fold_left
    (fun result n =>
       appendWithoutDuplicates result
         (matchBelow detached tags (fst n) 0 (goquery.Children (snd n))))
    selection [].

(** [Selection.Remove]: the nodes of the selection leave their parents. *)
Definition Remove (detached : list ref) (selection : list pointer) : list ref :=
  detached ++ map fst selection.

(** The nodes of a selection as they stand. *)
Definition nodes (detached : list ref) (selection : list pointer) : list Node :=
  map (fun n => current detached (fst n) (snd n)) selection.

Fixpoint lookupIn (n : Node) (r : ref) : option Node :=
  match r with
  | [] => Some n
  | i :: r' =>
      match goquery.Children n !! i with
      | Some c => lookupIn c r'
      | None => None
      end
  end.

Definition lookup (roots : list Node) (r : ref) : option Node :=
  match r with
  | [] => None
  | i :: r' =>
      match roots !! i with
      | Some n => lookupIn n r'
      | None => None
      end
  end.

(** The addresses [Selection.Parent] walks through from the node whose
    address, read backwards, is [reversed]: a detached node has no parent,
    and the document node is no element. *)
Fixpoint upward (detached : list ref) (reversed : list nat) : list ref :=
  match reversed with
  | [] => []
  | _ :: parent =>
      if isIn (rev reversed) detached then []
      else
        match parent with
        | [] => []
        | _ :: _ => rev parent :: upward detached parent
        end
  end.

(** The element ancestors of the node at [r] as they stand, nearest first. *)
Definition ancestors (roots : list Node) (detached : list ref) (r : ref) : list Node :=
  flat_map
    (fun a =>
       match lookup roots a with
       | Some n => [current detached a n]
       | None => []
       end)
    (upward detached (rev r)).

End dom.


(** A pointer whose address goes through a child, of index [i] or more, of
    the node at [r]. *)
Definition below (r : dom.ref) (i : nat) (n : dom.pointer) : Prop :=
  exists j k, (i <= j)%nat /\ fst n = r ++ j :: k.

(** [extractNumWords] of a selection of several nodes. *)
Definition extractNumWordsOf (selection : list Node) : Z :=
  Z.of_nat (length (strings.Split (removeSpaces (goquery.TextOf selection)) " ")).

Section Discover.
Context {E : Externals}.

Definition mediaTags : list string :=
  ["img"; "figure"; "object"; "iframe"; "svg"; "audio"; "video"; "script"; "style"].

Definition blockTags : list string := ["div"; "article"; "section"; "aside"].

(** The loop of [discoverLivePage] over the blocks. *)
Definition countBlocks (roots : list Node) (detached : list dom.ref)
    (tags : list dom.pointer) (ps : PageStats) : PageStats :=
  fold_left
    (fun ps tag =>
       let cData :=
         buildClassesIdSet (dom.current detached (fst tag) (snd tag))
           (dom.ancestors roots detached (fst tag)) in
       if (16 <? WordCount cData)%Z
       then addCountItem ps (ToPath cData) (WordCount cData)
       else ps)
    tags ps.

(** The entry the loop adds for one block: none at sixteen words or fewer. *)
Definition blockEntry (roots : list Node) (detached : list dom.ref)
    (tag : dom.pointer) : list CountItem :=
  let cData :=
    buildClassesIdSet (dom.current detached (fst tag) (snd tag))
      (dom.ancestors roots detached (fst tag)) in
  if (16 <? WordCount cData)%Z
  then [{| Key := ToPath cData; Value := WordCount cData |}]
  else [].

(** What [discoverLivePage] has detached when it reaches the blocks, and the
    blocks it then selects. *)
Definition detachedForBlocks (roots : list Node) : list dom.ref :=
  let body := dom.FindInDocument roots [] ["body"] in
  let detached := dom.Remove [] (dom.Find [] body mediaTags) in
  dom.Remove detached (dom.Find detached body ["a"]).

Definition blocksOf (roots : list Node) : list dom.pointer :=
  dom.Find (detachedForBlocks roots) (dom.FindInDocument roots [] ["body"]) blockTags.

Definition discoverLivePage (uri : string) : M PageStats :=
  opened ← Open uri;
  let exists_ := match opened with Some _ => true | None => false end in
  let ps := newPageStats uri exists_ in
  match opened with
  | Some bow =>
      let roots := Dom bow in
      let ps := addCountItem ps "links" (Z.of_nat (length (surf.Links bow))) in
      let ps := addCountItem ps "articleTags"
                  (Z.of_nat (length (dom.FindInDocument roots [] ["article"]))) in
      let ps := addCountItem ps "sectionTags"
                  (Z.of_nat (length (dom.FindInDocument roots [] ["section"]))) in
      let ps := addCountItem ps "tableTags"
                  (Z.of_nat (length (dom.FindInDocument roots [] ["table"]))) in
      let body := dom.FindInDocument roots [] ["body"] in
      let detached := dom.Remove [] (dom.Find [] body mediaTags) in
      let ps := addCountItem ps "words" (extractNumWordsOf (dom.nodes detached body)) in
      let ps := addCountItem ps "numInnerLinks"
                  (Z.of_nat (length (dom.Find detached body ["a"]))) in
      let detached := dom.Remove detached (dom.Find detached body ["a"]) in
      let ps := addCountItem ps "wordsNotInLinks"
                  (extractNumWordsOf (dom.nodes detached body)) in
      let tags := dom.Find detached body blockTags in
      mret (countBlocks roots detached tags ps)
  | None => mret ps
  end.

End Discover.

(** ** The handler of the blog route *)

Module encoder.

(** What [json.Marshal] writes for a value: no white space. *)
Fixpoint compact (v : json.Value) : string :=
  match v with
  | json.Null => "null"
  | json.Bool true => "true"
  | json.Bool false => "false"
  | json.Str s => json.encodeString s
  | json.Array [] => "[]"
  | json.Array (first :: others) =>
      "[" +:+ compact first
      +:+ (fix more (l : list json.Value) : string :=
             match l with
             | [] => EmptyString
             | item :: l' => "," +:+ compact item +:+ more l'
             end) others
      +:+ "]"
  | json.Object [] => "{}"
  | json.Object ((key, first) :: others) =>
      "{" +:+ json.encodeString key +:+ ":" +:+ compact first
      +:+ (fix more (l : list (string * json.Value)) : string :=
             match l with
             | [] => EmptyString
             | (k, item) :: l' =>
                 "," +:+ json.encodeString k +:+ ":" +:+ compact item +:+ more l'
             end) others
      +:+ "}"
  end.

(** [json.NewEncoder(w).Encode(page)]: the compact text and a newline, in
    one write. *)
Definition Encode (page : Page) : string :=
  compact (json.ofPage page) +:+ newline.

End encoder.

(** What a handler does to its [http.ResponseWriter], in order. *)
Inductive WriterCall :=
| SetHeader (key value : string)
| Write (data : string).

(** [vars[name]] on the route variables: the empty string for a missing one. *)
Definition routeVar (vars : gmap string string) (name : string) : string :=
  match vars !! name with
  | Some value => value
  | None => ""
  end.

Section Handlers.
Context {E : Externals}.

Definition homePage (vars : gmap string string) : M (list WriterCall) :=
  let useCache := negb (String.eqb (routeVar vars "cacheMode") "refresh") in
  '(page, isCached) ← readBlogPage (routeVar vars "url") (routeVar vars "scheme") useCache;
  let cacheType := if isCached : bool then "redis" else "-" in
  mret [SetHeader "cached" cacheType;
        SetHeader "Content-Type" "application/json; charset=UTF-8";
        Write (encoder.Encode page)].

End Handlers.

(** ** More sample inputs *)

Module Cases.

(** A page with a sidebar of seventeen words under [div#x], a short block,
    an image and two links. *)
Definition seventeen : string :=
  "one two three four five six seven eight nine ten eleven twelve thirteen fourteen fifteen sixteen seventeen".

Definition statsBody : list Node :=
  [ElementNode "div" [("id", "x")]
     [ElementNode "aside" [("class", "foo")] [TextNode seventeen];
      ElementNode "section" [("class", "bar")]
        [TextNode "too short"; ElementNode "img" [("src", "/i.png")] []];
      ElementNode "a" [("href", "/p1")] [TextNode "a link"]];
   ElementNode "a" [("href", "/p2")] [TextNode "more"]].

Definition statsSite (uri : string) : option (list Node) :=
  if String.eqb uri "http://example.com/stats" then Some (Sample.document statsBody)
  else None.

Definition statsWorld : World :=
  {| up := true; kv := ∅; web := statsSite; log := [] |}.

(** A store that cannot be reached, although it holds an entry. *)
Definition downStore : World :=
  {| up := false; kv := {[ "page:example.com/blog" := ("not json", 1%Z) ]};
     web := Sample.site; log := [] |}.

(** The page of an address that does not open. *)
Definition gonePage : Page :=
  {| p_Uri := "http://example.com/gone"; p_Exists := false; p_Cached := false;
     p_Title := ""; p_Articles := None; p_Links := None |}.

(** Stand-ins whose decoder reads the text of [gonePage] back, and nothing
    else. *)
Definition goneDecoder : Externals :=
  {| Html := fun n => Some (goquery.Text n);
     Unmarshal := fun text page =>
       if String.eqb text (json.MarshalIndent gonePage "" " ")
       then (gonePage, true) else (page, false);
     ResolveUrl := fun _ href =>
       Some {| Scheme := "http"; Host := "example.com"; Path := href |} |}.

(** The route variables of [/blog/example.com%2Fblog/http/refresh]. *)
Definition refreshVars : gmap string string :=
  {[ "url" := "example.com/blog"; "scheme" := "http"; "cacheMode" := "refresh" ]}.

End Cases.

(** * Properties *)

(** ** Word counting *)

(** C7: the word count of a node is the count of its flattened text, which is
    trimmed of spaces, has its runs of white space collapsed, and is split on
    single spaces; the empty text counts one word, ["a   b"] two and
    ["  a  b  c  "] three. *)
Theorem wordCount_examples :
  (forall selection : Node,
      extractNumWords selection = Z.of_nat (wordCount (goquery.Text selection)))
  /\ (forall text : string,
        wordCount text =
        length (strings.Split
                  (regexp.cleanSpaceRgx_ReplaceAllString (strings.Trim text " ") " ")
                  " "))
  /\ wordCount "" = 1
  /\ wordCount "a   b" = 2
  /\ wordCount "  a  b  c  " = 3.
Proof.
  split; [intros selection; reflexivity |].
  split; [intros text; reflexivity |].
  repeat split; vm_compute; reflexivity.
Qed.

(** ** Article extraction *)

Section ExtractionFacts.
Context {E : Externals}.

Lemma extractInto_articleOf (output : list Article) (i : nat) (article : Node) :
  extractInto output i article =
  match articleOf article with
  | Some a => <[i := a]> output
  | None => output
  end.
Proof.
  unfold extractInto, articleOf.
  destruct (Html article) as [itemHtml|]; [|reflexivity].
  destruct (goquery.Find article _) as [|titleElement others]; [reflexivity|].
  destruct (goquery.Find titleElement _) as [|anchor others']; reflexivity.
Qed.

Lemma filled_S (articles : list Node) (n : nat) :
  filled articles (S n) =
  if (n <? maxNum)%nat then
    match articles !! n with
    | Some article => extractInto (filled articles n) n article
    | None => filled articles n
    end
  else filled articles n.
Proof. unfold filled. rewrite seq_S, fold_left_app. reflexivity. Qed.

Lemma filled_length (articles : list Node) (n : nat) :
  length (filled articles n) = maxNum.
Proof.
  induction n as [|n IH]; [apply length_replicate|].
  rewrite filled_S.
  destruct (n <? maxNum)%nat; [|exact IH].
  destruct (articles !! n) as [article|]; [|exact IH].
  rewrite extractInto_articleOf.
  destruct (articleOf article); [rewrite length_insert|]; exact IH.
Qed.

(** Slot [i] holds what the body stored for candidate [i] once the loop has
    passed it, and the zero value before. *)
Lemma filled_lookup (articles : list Node) (n i : nat) (article : Node) :
  articles !! i = Some article -> (i < maxNum)%nat ->
  filled articles n !! i =
  Some (if (i <? n)%nat then default zeroArticle (articleOf article) else zeroArticle).
Proof.
  intros Hi Hcap. induction n as [|n IH].
  - apply lookup_replicate_2, Hcap.
  - rewrite filled_S.
    destruct (decide (i = n)) as [->|Hne].
    + rewrite (proj2 (Nat.ltb_lt n maxNum) Hcap), Hi, extractInto_articleOf.
      rewrite (proj2 (Nat.ltb_lt n (S n))) by lia.
      rewrite (proj2 (Nat.ltb_ge n n)) in IH by lia.
      destruct (articleOf article) as [a|]; [|exact IH].
      apply list_lookup_insert_eq. rewrite filled_length. exact Hcap.
    + assert ((i <? S n)%nat = (i <? n)%nat) as ->.
      { destruct (Nat.ltb_spec i n), (Nat.ltb_spec i (S n)); try reflexivity; lia. }
      destruct (n <? maxNum)%nat; [|exact IH].
      destruct (articles !! n) as [other|]; [|exact IH].
      rewrite extractInto_articleOf.
      destruct (articleOf other); [rewrite list_lookup_insert_ne by lia|]; exact IH.
Qed.

Lemma fillOutput_filled (articles : list Node) :
  fillOutput articles = filled articles (length articles).
Proof. reflexivity. Qed.

(** C1: with more than [maxNum] candidates the guard [i < maxNum] keeps the
    loop inside the array, but the result [output[0:numArticles]] is out of
    the array's bounds, so the call panics instead of returning the first
    hundred articles. *)
Theorem readBlogArticles_over_cap (bow : Browser) :
  (maxNum < length (candidates bow))%nat ->
  readBlogArticles bow = go.Panicked "slice bounds out of range".
Proof.
  intros Hmany. unfold readBlogArticles, go.sliceTo.
  rewrite fillOutput_filled, filled_length.
  rewrite (proj2 (Nat.leb_gt _ _) Hmany). reflexivity.
Qed.

Lemma readBlogArticles_returned (bow : Browser) (out : list Article) (bow' : Browser) :
  readBlogArticles bow = go.Returned (out, bow') ->
  (length (candidates bow) <= maxNum)%nat
  /\ out = take (length (candidates bow)) (fillOutput (candidates bow)).
Proof.
  unfold readBlogArticles, go.sliceTo.
  rewrite fillOutput_filled, filled_length.
  destruct (Nat.leb_spec (length (candidates bow)) maxNum) as [Hle|Hgt];
    [|discriminate].
  intros [= <- _]. split; [exact Hle | reflexivity].
Qed.

Lemma readBlogArticles_length (bow : Browser) (out : list Article) (bow' : Browser) :
  readBlogArticles bow = go.Returned (out, bow') ->
  length out = length (candidates bow).
Proof.
  intros Hret. destruct (readBlogArticles_returned _ _ _ Hret) as [Hle ->].
  rewrite length_take, fillOutput_filled, filled_length. lia.
Qed.

Lemma readBlogArticles_lookup (bow : Browser) (out : list Article) (bow' : Browser)
    (i : nat) (article : Node) :
  readBlogArticles bow = go.Returned (out, bow') ->
  candidates bow !! i = Some article ->
  out !! i = Some (default zeroArticle (articleOf article)).
Proof.
  intros Hret Hi.
  destruct (readBlogArticles_returned _ _ _ Hret) as [Hle ->].
  pose proof (lookup_lt_Some _ _ _ Hi) as Hlt.
  rewrite lookup_take_lt by exact Hlt.
  rewrite fillOutput_filled, (filled_lookup _ _ _ _ Hi) by lia.
  rewrite (proj2 (Nat.ltb_lt _ _) Hlt). reflexivity.
Qed.

(** C2, as the code has it: the result has one entry per candidate, in
    document order.  The entry of a candidate whose markup serialises and
    whose first h1/h2/h3 heading contains an anchor is the Article with that
    heading's text as title and the href of the heading's first anchor as
    uri (the empty string when the anchor has no href).  A candidate with no
    heading, or whose first heading has no anchor, contributes no populated
    Article: its entry is the blank Article. *)
Theorem readBlogArticles_entries (bow : Browser) (out : list Article) (bow' : Browser) :
  readBlogArticles bow = go.Returned (out, bow') ->
  length out = length (candidates bow)
  /\ forall (i : nat) (article : Node),
      candidates bow !! i = Some article ->
      (forall itemHtml titleElement others anchor others',
          Html article = Some itemHtml ->
          goquery.Find article ["h1"; "h2"; "h3"] = titleElement :: others ->
          goquery.Find titleElement ["a"] = anchor :: others' ->
          out !! i =
          Some {| a_Title := goquery.Text titleElement;
                  a_Uri := goquery.AttrOr anchor "href" "";
                  a_Content :=
                    strings.Trim (regexp.p1_ReplaceAllString itemHtml)
                      (newline +:+ tab +:+ " ");
                  a_Links := collectLinks (goquery.Find article ["a"]) |})
      /\ (goquery.Find article ["h1"; "h2"; "h3"] = []
          \/ (exists titleElement others,
                 goquery.Find article ["h1"; "h2"; "h3"] = titleElement :: others
                 /\ goquery.Find titleElement ["a"] = []) ->
          out !! i = Some zeroArticle).
Proof.
  intros Hret. split.
  - exact (readBlogArticles_length _ _ _ Hret).
  - intros i article Hi.
    rewrite (readBlogArticles_lookup _ _ _ _ _ Hret Hi). unfold articleOf. split.
    + intros itemHtml titleElement others anchor others' -> -> ->. reflexivity.
    + intros [-> | (titleElement & others & -> & ->)];
        destruct (Html article); reflexivity.
Qed.

End ExtractionFacts.

(** C1, on a document with 101 articles. *)
Lemma readBlogArticles_over_cap_witness :
  (maxNum < length (candidates (Sample.crowded 101)))%nat
  /\ readBlogArticles (E := Sample.externals) (Sample.crowded 101)
     = go.Panicked "slice bounds out of range".
Proof.
  assert (maxNum < length (candidates (Sample.crowded 101)))%nat as Hmany
    by (vm_compute; lia).
  split; [exact Hmany|].
  exact (readBlogArticles_over_cap (E := Sample.externals) (Sample.crowded 101) Hmany).
Defined.

(** C2 fails as stated: of three candidates, the one without a heading still
    has an entry (the blank Article), and the one whose heading's anchor has
    no href has an entry with an empty uri. *)
Lemma readBlogArticles_blank_entries :
  exists out bow',
    readBlogArticles (E := Sample.externals) (Sample.browserOn Sample.threeArticles)
    = go.Returned (out, bow')
    /\ length out = 3
    /\ out !! 0%nat = Some zeroArticle
    /\ a_Title <$> out !! 1%nat = Some "T"
    /\ a_Uri <$> out !! 1%nat = Some "".
Proof.
  do 2 eexists. split; [vm_compute; reflexivity|].
  vm_compute. repeat split.
Qed.

Lemma readBlogArticles_entries_witness :
  exists out bow',
    readBlogArticles (E := Sample.externals) (Sample.browserOn Sample.threeArticles)
    = go.Returned (out, bow')
    /\ length out = length (candidates (Sample.browserOn Sample.threeArticles)).
Proof.
  do 2 eexists. split.
  - vm_compute. reflexivity.
  - refine (proj1 (readBlogArticles_entries (E := Sample.externals)
                     (Sample.browserOn Sample.threeArticles) _ _ _)).
    vm_compute. reflexivity.
Defined.

(** ** The breadcrumb builder *)

Lemma TagName_buildClassesIdSet (selection : Node) (ancestors : list Node) :
  TagName (buildClassesIdSet selection ancestors) = goquery.NodeName selection.
Proof. destruct ancestors; reflexivity. Qed.

Lemma fragment_buildClassesIdSet (selection : Node) (ancestors : list Node) :
  fragment (buildClassesIdSet selection ancestors) = nodeFragment selection.
Proof. destruct ancestors; reflexivity. Qed.

Lemma buildPath_ParentPath (selection : Node) (ancestors : list Node) :
  buildPath selection ancestors =
  strings.Trim
    (strings.Join [ParentPath (buildClassesIdSet selection ancestors);
                   nodeFragment selection] " ") " ".
Proof.
  unfold buildPath, ToPath. rewrite fragment_buildClassesIdSet. reflexivity.
Qed.

(** The parent path the builder settles on, read off its body. *)
Lemma ParentPath_cons (selection parent : Node) (up : list Node) :
  ParentPath (buildClassesIdSet selection (parent :: up)) =
  let parentPath :=
    if isRootTag (goquery.NodeName parent) then "" else buildPath parent up in
  if noMarker parentPath then
    match up with
    | [] => parentPath
    | grandparent :: up' =>
        if isRootTag (goquery.NodeName grandparent) then parentPath
        else buildPath grandparent up'
    end
  else parentPath.
Proof.
  cbn [buildClassesIdSet ParentPath].
  rewrite TagName_buildClassesIdSet.
  destruct up as [|grandparent up']; [reflexivity|].
  rewrite TagName_buildClassesIdSet. reflexivity.
Qed.

Lemma buildPath_chain (k : nat) :
  forall (ancestors : list Node), (length ancestors <= k)%nat ->
  forall selection : Node,
  exists used : list Node,
    used `sublist_of` ancestors
    /\ Forall notRoot used
    /\ buildPath selection ancestors = breadcrumb (selection :: used).
Proof.
  induction k as [|k IH]; intros ancestors Hlen selection.
  - destruct ancestors; [|simpl in Hlen; lia].
    exists []. repeat split; constructor.
  - destruct ancestors as [|parent up].
    { exists []. repeat split; constructor. }
    simpl in Hlen.
    (* it is enough to read the parent path as the breadcrumb of a chain *)
    enough (exists used, used `sublist_of` (parent :: up) /\ Forall notRoot used
              /\ ParentPath (buildClassesIdSet selection (parent :: up)) = breadcrumb used)
      as (used & Hsub & Hnr & Hpp).
    { exists used. repeat split; try assumption.
      rewrite buildPath_ParentPath, Hpp. reflexivity. }
    rewrite ParentPath_cons. cbv zeta.
    destruct (IH up ltac:(lia) parent) as (usedP & HsubP & HnrP & HpathP).
    (* the chain behind the parent's own path *)
    assert (exists used, used `sublist_of` (parent :: up) /\ Forall notRoot used
              /\ (if isRootTag (goquery.NodeName parent) then "" else buildPath parent up)
                 = breadcrumb used) as (usedO & HsubO & HnrO & HpathO).
    { destruct (isRootTag (goquery.NodeName parent)) eqn:Hroot.
      - exists []. repeat split; [apply sublist_nil_l | constructor].
      - exists (parent :: usedP). repeat split.
        + apply sublist_skip, HsubP.
        + constructor; assumption.
        + exact HpathP. }
    destruct (noMarker _); [|exists usedO; auto].
    destruct up as [|grandparent up']; [exists usedO; auto|].
    destruct (isRootTag (goquery.NodeName grandparent)) eqn:Hroot; [exists usedO; auto|].
    simpl in Hlen.
    destruct (IH up' ltac:(lia) grandparent) as (usedG & HsubG & HnrG & HpathG).
    exists (grandparent :: usedG). repeat split.
    + apply sublist_cons, sublist_skip, HsubG.
    + constructor; assumption.
    + exact HpathG.
Qed.

(** C6: whatever the node and its ancestors, the breadcrumb is the node's own
    fragment appended to the fragments of some of its ancestors (taken in
    order, each joined as [ToPath] joins), and no ancestor that contributes a
    fragment is [html] or [body] -- at any depth, and also where the builder
    climbed to the grandparent.  So for a node that is not itself [html] or
    [body], as every block the analyzer passes, no fragment of the breadcrumb
    has such a tag. *)
Theorem buildPath_skips_root_wrappers (selection : Node) (ancestors : list Node) :
  exists used : list Node,
    used `sublist_of` ancestors
    /\ buildPath selection ancestors = breadcrumb (selection :: used)
    /\ Forall (fun a => goquery.NodeName a <> "html" /\ goquery.NodeName a <> "body") used
    /\ (goquery.NodeName selection <> "html" /\ goquery.NodeName selection <> "body" ->
        Forall (fun a => goquery.NodeName a <> "html" /\ goquery.NodeName a <> "body")
          (selection :: used)).
Proof.
  destruct (buildPath_chain (length ancestors) ancestors (le_n _) selection)
    as (used & Hsub & Hnr & Hpath).
  assert (Forall (fun a => goquery.NodeName a <> "html" /\ goquery.NodeName a <> "body")
            used) as Hused.
  { eapply Forall_impl; [exact Hnr|].
    intros a Ha. unfold notRoot, isRootTag in Ha.
    apply orb_false_iff in Ha as [Hbody Hhtml].
    apply String.eqb_neq in Hbody, Hhtml. split; assumption. }
  exists used. repeat split; try assumption.
  intros Hself. constructor; assumption.
Qed.

(** C6, on the paragraph under [section#x > div]: both ancestors below
    [body] contribute, [body] and [html] do not. *)
Lemma buildPath_skips_root_wrappers_witness :
  exists selection ancestors used,
    locate Sample.nested [] [1; 0; 0; 0]%nat = Some (selection, ancestors)
    /\ goquery.NodeName <$> ancestors = ["div"; "section"; "body"; "html"]
    /\ goquery.NodeName <$> used = ["div"; "section"]
    /\ buildPath selection ancestors = breadcrumb (selection :: used)
    /\ Forall (fun a => goquery.NodeName a <> "html" /\ goquery.NodeName a <> "body")
         (selection :: used).
Proof.
  assert (exists selection ancestors,
             locate Sample.nested [] [1; 0; 0; 0]%nat = Some (selection, ancestors)
             /\ goquery.NodeName selection = "p"
             /\ goquery.NodeName <$> ancestors = ["div"; "section"; "body"; "html"])
    as (selection & ancestors & Hat & Hp & Hnames)
    by (do 2 eexists; split; [vm_compute; reflexivity | split; reflexivity]).
  destruct (buildPath_skips_root_wrappers selection ancestors)
    as (used & Hsub & Hpath & _ & Hall).
  assert (goquery.NodeName <$> used = ["div"; "section"]) as Hused.
  { injection Hat as <- <-.
    vm_compute in Hpath.
    repeat match goal with
           | H : _ `sublist_of` _ |- _ => inversion H; subst; clear H
           end;
      vm_compute in Hpath; try discriminate; reflexivity. }
  exists selection, ancestors, used. repeat split; try assumption.
  apply Hall. rewrite Hp. split; discriminate.
Defined.

(** C5 fails as stated: the paragraph under [section#x > div] has a parent
    whose own fragment, [div], carries no marker, yet the builder does not
    climb: the parent's whole path [section#x div] carries the marker of the
    section, and it is kept instead of the grandparent's [section#x]. *)
Lemma buildClassesIdSet_marker_above :
  exists selection parent grandparent up,
    locate Sample.nested [] [1; 0; 0; 0]%nat = Some (selection, parent :: grandparent :: up)
    /\ nodeFragment parent = "div"
    /\ noMarker (nodeFragment parent) = true
    /\ buildPath grandparent up = "section#x"
    /\ ParentPath (buildClassesIdSet selection (parent :: grandparent :: up))
       = "section#x div"
    /\ buildPath selection (parent :: grandparent :: up) = "section#x div p.a.b".
Proof.
  do 4 eexists. split; [vm_compute; reflexivity|].
  vm_compute. repeat split.
Qed.

(** C5, as the code has it: the builder first takes the parent's whole path
    (empty when the parent is [html] or [body]).  It climbs exactly when that
    path contains neither [.] nor [#]; it then takes the grandparent's path
    if there is a grandparent other than [html] and [body], and keeps the
    parent's path otherwise.  The climb is not repeated. *)
Theorem buildClassesIdSet_skip_rule (selection parent : Node) (up : list Node) :
  let parentPath :=
    if isRootTag (goquery.NodeName parent) then "" else buildPath parent up in
  let climbs :=
    negb (strings.Contains parentPath ".") && negb (strings.Contains parentPath "#") in
  ParentPath (buildClassesIdSet selection []) = ""
  /\ ParentPath (buildClassesIdSet selection (parent :: up)) =
     match climbs, up with
     | true, grandparent :: up' =>
         if isRootTag (goquery.NodeName grandparent) then parentPath
         else buildPath grandparent up'
     | _, _ => parentPath
     end.
Proof.
  cbv zeta. split; [reflexivity|].
  rewrite ParentPath_cons. cbv zeta. fold (noMarker (if isRootTag (goquery.NodeName parent) then "" else buildPath parent up)).
  destruct (noMarker _); [|reflexivity].
  destruct up; reflexivity.
Qed.

(** ** The cache-aside reader *)

Section CacheFacts.
Context {E : Externals}.

Lemma getCache_present (key val : string) (expiration : Z) (w : World) :
  up w = true -> kv w !! key = Some (val, expiration) ->
  getCache key w
  = go.Returned ((fst (Unmarshal val emptyPage), None), logged (EvGet key) w).
Proof.
  intros Hup Hkey. unfold getCache, mbind, M_bind, redis.Get.
  rewrite Hup, Hkey. reflexivity.
Qed.

Lemma getCache_returns (key : string) (w : World) :
  exists page errVal,
    getCache key w = go.Returned ((page, errVal), logged (EvGet key) w).
Proof.
  unfold getCache, mbind, M_bind, redis.Get.
  destruct (up w); [destruct (kv w !! key) as [[val expiration]|]|]; eauto.
Qed.

(** What the live reader returns depends on the web alone, and the only
    call it makes outside is the one that opens the page. *)
Lemma readLiveBlogPage_returned (uri : string) (w : World) (data : Page) (w1 : World) :
  readLiveBlogPage uri w = go.Returned (data, w1) ->
  w1 = logged (EvOpen uri) w
  /\ p_Cached data = false
  /\ forall w2 : World, web w2 = web w ->
       readLiveBlogPage uri w2 = go.Returned (data, logged (EvOpen uri) w2).
Proof.
  unfold readLiveBlogPage, mbind, M_bind, Open, lift, mret, M_ret.
  destruct (web w uri) as [dom|] eqn:Hweb; simpl.
  - destruct (readBlogArticles _) as [[articles bow]|msg] eqn:Hread; [|discriminate].
    intros [= <- <-]. repeat split.
    intros w2 ->. rewrite Hweb. simpl. rewrite Hread. reflexivity.
  - intros [= <- <-]. repeat split.
    intros w2 ->. rewrite Hweb. reflexivity.
Qed.

(** The path through the cache: a hit. *)
Lemma readBlogPage_hit (path scheme : string) (w : World) (page : Page) :
  getCache ("page:" +:+ path) w
  = go.Returned ((page, None), logged (EvGet ("page:" +:+ path)) w) ->
  readBlogPage path scheme true w
  = go.Returned ((setCached page, true), logged (EvGet ("page:" +:+ path)) w).
Proof.
  intros Hget. unfold readBlogPage, mbind, M_bind. rewrite Hget. reflexivity.
Qed.

(** The path around the cache: the page is read live and stored. *)
Lemma readBlogPage_fresh (path scheme : string) (cached : bool) (w : World)
    (page : Page) (errVal : error) (data : Page) (w1 : World) :
  getCache ("page:" +:+ path) w
  = go.Returned ((page, errVal), logged (EvGet ("page:" +:+ path)) w) ->
  isNil errVal && cached = false ->
  readLiveBlogPage (scheme +:+ "://" +:+ path) w = go.Returned (data, w1) ->
  readBlogPage path scheme cached w
  = go.Returned
      ((data, false),
       stored ("page:" +:+ path) (json.MarshalIndent data "" " ") (time.minutes 1440)
         (logged (EvSet ("page:" +:+ path) (json.MarshalIndent data "" " ")
                    (time.minutes 1440))
            (logged (EvOpen (scheme +:+ "://" +:+ path))
               (logged (EvGet ("page:" +:+ path)) w)))).
Proof.
  intros Hget Hmiss Hlive.
  destruct (readLiveBlogPage_returned _ _ _ _ Hlive) as (_ & _ & Hweb).
  unfold readBlogPage, mbind at 1, M_bind at 1. rewrite Hget. cbv beta iota zeta.
  rewrite Hmiss. unfold mbind, M_bind.
  rewrite (Hweb (logged (EvGet ("page:" +:+ path)) w) eq_refl).
  reflexivity.
Qed.

(** Every return of [readBlogPage] is one of the two paths. *)
Lemma readBlogPage_returned (path scheme : string) (cached : bool) (w : World)
    (r : Page * bool) (w' : World) :
  readBlogPage path scheme cached w = go.Returned (r, w') ->
  let key := "page:" +:+ path in
  let uri := scheme +:+ "://" +:+ path in
  (exists page,
      cached = true
      /\ getCache key w = go.Returned ((page, None), logged (EvGet key) w)
      /\ r = (setCached page, true)
      /\ w' = logged (EvGet key) w)
  \/ (exists data,
        readLiveBlogPage uri (logged (EvGet key) w)
        = go.Returned (data, logged (EvOpen uri) (logged (EvGet key) w))
        /\ r = (data, false)
        /\ w' = stored key (json.MarshalIndent data "" " ") (time.minutes 1440)
                  (logged (EvSet key (json.MarshalIndent data "" " ") (time.minutes 1440))
                     (logged (EvOpen uri) (logged (EvGet key) w)))).
Proof.
  cbv zeta. intros Hrun.
  destruct (getCache_returns ("page:" +:+ path) w) as (page & errVal & Hget).
  unfold readBlogPage, mbind at 1, M_bind at 1 in Hrun. rewrite Hget in Hrun.
  cbv beta iota zeta in Hrun.
  destruct (isNil errVal && cached) eqn:Hgate.
  - apply andb_true_iff in Hgate as [Herr ->].
    destruct errVal; [discriminate|].
    injection Hrun as <- <-. left. exists page. auto.
  - unfold mbind, M_bind in Hrun.
    destruct (readLiveBlogPage _ _) as [[data w1]|msg] eqn:Hlive; [|discriminate].
    destruct (readLiveBlogPage_returned _ _ _ _ Hlive) as (-> & _ & _).
    injection Hrun as <- <-. right. exists data. auto.
Qed.

End CacheFacts.

Lemma append_assoc (a b c : string) : (a +:+ b) +:+ c = a +:+ (b +:+ c).
Proof.
  induction a as [|x a IH]; [reflexivity|].
  change (String x ((a +:+ b) +:+ c) = String x (a +:+ (b +:+ c))).
  f_equal. exact IH.
Qed.

(** The text written for a page that is not marked as cached says so. *)
Lemma MarshalIndent_cached (data : Page) (indent : string) :
  p_Cached data = false ->
  exists before after,
    json.MarshalIndent data "" indent
    = before +:+ (dquote +:+ "cached" +:+ dquote +:+ ": false") +:+ after.
Proof.
  intros Hc. unfold json.MarshalIndent, json.ofPage. rewrite Hc.
  cbn [json.indentValue].
  exists ("{" +:+ json.lineBreak "" indent 1 +:+ json.encodeString "uri" +:+ ": "
          +:+ json.encodeString (p_Uri data) +:+ "," +:+ json.lineBreak "" indent 1
          +:+ json.encodeString "exists" +:+ ": "
          +:+ json.indentValue "" indent 1 (json.Bool (p_Exists data))
          +:+ "," +:+ json.lineBreak "" indent 1).
  eexists. rewrite !append_assoc. repeat f_equal.
Qed.

Lemma log_stored (key value : string) (expiration : Z) (w : World) :
  log (stored key value expiration w) = log w.
Proof. reflexivity. Qed.

Section CacheClaims.
Context {E : Externals}.

(** C3: a present key is served as a hit whatever [json.Unmarshal] made of
    its bytes, since [getCache] drops the error of the decoder: the page is
    not computed, nothing is written, and the caller receives the page
    variable as the decoder left it, marked as cached. *)
Theorem readBlogPage_serves_undecoded (path scheme val : string) (expiration : Z)
    (w : World) :
  up w = true ->
  kv w !! ("page:" +:+ path) = Some (val, expiration) ->
  readBlogPage path scheme true w
  = go.Returned
      ((setCached (fst (Unmarshal val emptyPage)), true),
       logged (EvGet ("page:" +:+ path)) w).
Proof.
  intros Hup Hkey. apply readBlogPage_hit.
  exact (getCache_present _ _ _ _ Hup Hkey).
Qed.

(** C4, as the code has it: without the cache, [readBlogPage] still asks the
    store for the key and drops the answer; then, whenever the live reader
    returns, it writes the page under the key for 1440 minutes and returns it
    with [isCached = false] -- whatever the store held. *)
Theorem readBlogPage_refresh (path scheme : string) (w : World) (data : Page) (w1 : World) :
  readLiveBlogPage (scheme +:+ "://" +:+ path) w = go.Returned (data, w1) ->
  let key := "page:" +:+ path in
  let value := json.MarshalIndent data "" " " in
  exists w' : World,
    readBlogPage path scheme false w = go.Returned ((data, false), w')
    /\ log w' = log w ++ [EvGet key; EvOpen (scheme +:+ "://" +:+ path);
                          EvSet key value (time.minutes 1440)]
    /\ kv w' = if up w then <[key := (value, time.minutes 1440)]> (kv w) else kv w.
Proof.
  intros Hlive. cbv zeta.
  destruct (getCache_returns ("page:" +:+ path) w) as (page & errVal & Hget).
  eexists. split.
  - apply (readBlogPage_fresh _ _ _ _ _ _ _ _ Hget (andb_false_r _) Hlive).
  - split; [|reflexivity].
    cbn [log stored logged]. rewrite <- !app_assoc. reflexivity.
Qed.

(** C8, as the code has it: a page returned as freshly computed has just been
    written under ["page:" + path] as JSON indented by one space per level,
    to expire after 1440 minutes. *)
Theorem readBlogPage_persists (path scheme : string) (cached : bool) (w : World)
    (data : Page) (w' : World) :
  readBlogPage path scheme cached w = go.Returned ((data, false), w') ->
  let value := json.MarshalIndent data "" " " in
  last (log w') = Some (EvSet ("page:" +:+ path) value (1440 * time.Minute)%Z)
  /\ (up w = true ->
      kv w' !! ("page:" +:+ path) = Some (value, (1440 * time.Minute)%Z))
  /\ strings.HasPrefix value
       ("{" +:+ newline +:+ " " +:+ dquote +:+ "uri" +:+ dquote +:+ ": ") = true.
Proof.
  intros Hrun. cbv zeta.
  destruct (readBlogPage_returned _ _ _ _ _ _ Hrun)
    as [(page & _ & _ & [=] & _) | (data' & _ & [= <-] & ->)].
  repeat split.
  - cbn [log stored logged]. rewrite last_snoc. reflexivity.
  - intros Hup. cbn [kv stored logged up]. rewrite Hup.
    rewrite lookup_insert_eq. reflexivity.
Qed.

(** C10: [readBlogPage] either serves a hit, and then writes nothing (the
    flag is set on the returned copy only), or returns a page whose flag is
    unset and has written exactly that page, whose text spells
    ["cached": false]. *)
Theorem readBlogPage_stores_uncached (path scheme : string) (cached : bool) (w : World)
    (r : Page * bool) (w' : World) :
  readBlogPage path scheme cached w = go.Returned (r, w') ->
  let key := "page:" +:+ path in
  let value := json.MarshalIndent (fst r) "" " " in
  (snd r = true /\ p_Cached (fst r) = true
   /\ kv w' = kv w /\ log w' = log w ++ [EvGet key])
  \/ (snd r = false /\ p_Cached (fst r) = false
      /\ log w' = log w ++ [EvGet key; EvOpen (scheme +:+ "://" +:+ path);
                            EvSet key value (time.minutes 1440)]
      /\ kv w' = (if up w then <[key := (value, time.minutes 1440)]> (kv w) else kv w)
      /\ exists before after,
           value = before +:+ (dquote +:+ "cached" +:+ dquote +:+ ": false") +:+ after).
Proof.
  intros Hrun. cbv zeta.
  destruct (readBlogPage_returned _ _ _ _ _ _ Hrun)
    as [(page & _ & _ & -> & ->) | (data & Hlive & -> & ->)].
  - left. repeat split.
  - right. destruct (readLiveBlogPage_returned _ _ _ _ Hlive) as (_ & Hflag & _).
    repeat split; try assumption.
    + cbn [log stored logged]. rewrite <- !app_assoc. reflexivity.
    + apply MarshalIndent_cached, Hflag.
Qed.

End CacheClaims.

(** C3, on a store whose entry for the blog is not JSON: the blank page
    comes back as a hit. *)
Lemma readBlogPage_serves_undecoded_witness :
  up Sample.brokenStore = true
  /\ kv Sample.brokenStore !! "page:example.com/blog" = Some ("not json", 1%Z)
  /\ snd (Unmarshal (Externals := Sample.externals) "not json" emptyPage) = false
  /\ readBlogPage (E := Sample.externals) "example.com/blog" "http" true Sample.brokenStore
     = go.Returned
         ((setCached emptyPage, true),
          logged (EvGet "page:example.com/blog") Sample.brokenStore).
Proof.
  assert (kv Sample.brokenStore !! "page:example.com/blog" = Some ("not json", 1%Z))
    as Hkey by (vm_compute; reflexivity).
  split; [reflexivity|]. split; [exact Hkey|]. split; [reflexivity|].
  exact (readBlogPage_serves_undecoded (E := Sample.externals)
           "example.com/blog" "http" "not json" 1%Z Sample.brokenStore eq_refl Hkey).
Defined.

(** C4 fails as stated: with the cache switched off the first call
    [readBlogPage] makes is still the read of the key. *)
Lemma readBlogPage_refresh_reads_store :
  exists r w',
    readBlogPage (E := Sample.externals) "example.com/blog" "http" false Sample.emptyStore
    = go.Returned (r, w')
    /\ snd r = false
    /\ log w' = [EvGet "page:example.com/blog";
                 EvOpen "http://example.com/blog";
                 EvSet "page:example.com/blog" (json.MarshalIndent (fst r) "" " ")
                   86400000000000%Z].
Proof.
  do 2 eexists. split; [vm_compute; reflexivity|].
  vm_compute. repeat split.
Qed.

Lemma readBlogPage_refresh_witness :
  exists data w1 w',
    readLiveBlogPage (E := Sample.externals) "http://example.com/blog" Sample.brokenStore
    = go.Returned (data, w1)
    /\ readBlogPage (E := Sample.externals) "example.com/blog" "http" false Sample.brokenStore
       = go.Returned ((data, false), w')
    /\ kv w' !! "page:example.com/blog"
       = Some (json.MarshalIndent data "" " ", 86400000000000%Z).
Proof.
  assert (exists data w1,
             readLiveBlogPage (E := Sample.externals) "http://example.com/blog"
               Sample.brokenStore = go.Returned (data, w1)) as (data & w1 & Hlive)
    by (do 2 eexists; vm_compute; reflexivity).
  destruct (readBlogPage_refresh (E := Sample.externals) "example.com/blog" "http"
              Sample.brokenStore data w1 Hlive) as (w' & Hrun & _ & Hkv).
  exists data, w1, w'. split; [exact Hlive|]. split; [exact Hrun|].
  rewrite Hkv. apply lookup_insert_eq.
Defined.

(** C8 fails as stated: the text stored for an address that does not open is
    indented by one space, not two. *)
Lemma readBlogPage_one_space_indent :
  exists r w',
    readBlogPage (E := Sample.externals) "example.com/gone" "http" true Sample.emptyStore
    = go.Returned (r, w')
    /\ kv w' !! "page:example.com/gone" = Some (Sample.gonePageText, 86400000000000%Z)
    /\ String.eqb Sample.gonePageText (json.MarshalIndent (fst r) "" "  ") = false.
Proof.
  do 2 eexists. split; [vm_compute; reflexivity|].
  vm_compute. repeat split.
Qed.

Lemma readBlogPage_persists_witness :
  exists data w',
    readBlogPage (E := Sample.externals) "example.com/gone" "http" true Sample.emptyStore
    = go.Returned ((data, false), w')
    /\ kv w' !! "page:example.com/gone"
       = Some (json.MarshalIndent data "" " ", (1440 * time.Minute)%Z).
Proof.
  assert (exists data w',
             readBlogPage (E := Sample.externals) "example.com/gone" "http" true
               Sample.emptyStore = go.Returned ((data, false), w')) as (data & w' & Hrun)
    by (do 2 eexists; vm_compute; reflexivity).
  exists data, w'. split; [exact Hrun|].
  exact (proj1 (proj2 (readBlogPage_persists (E := Sample.externals) _ _ _ _ _ _ Hrun))
           eq_refl).
Defined.

Lemma readBlogPage_stores_uncached_witness :
  exists r w',
    readBlogPage (E := Sample.externals) "example.com/blog" "http" true Sample.emptyStore
    = go.Returned (r, w')
    /\ (snd r = true \/ p_Cached (fst r) = false).
Proof.
  assert (exists r w',
             readBlogPage (E := Sample.externals) "example.com/blog" "http" true
               Sample.emptyStore = go.Returned (r, w')) as (r & w' & Hrun)
    by (do 2 eexists; vm_compute; reflexivity).
  exists r, w'. split; [exact Hrun|].
  destruct (readBlogPage_stores_uncached (E := Sample.externals) _ _ _ _ _ _ Hrun)
    as [(Hhit & _) | (_ & Hflag & _)]; [left | right]; assumption.
Defined.

(** ** The links of a page *)

Lemma uriIsInLinkItems_elem (links : slice LinkItem) (str : string) :
  uriIsInLinkItems links str = true <-> str ∈ li_Uri <$> go.elems links.
Proof.
  unfold uriIsInLinkItems. rewrite existsb_exists, list_elem_of_fmap. split.
  - intros (link & Hin & Heq). apply String.eqb_eq in Heq.
    exists link. split; [symmetry; exact Heq | apply list_elem_of_In, Hin].
  - intros (link & -> & Hin).
    exists link. split; [apply list_elem_of_In, Hin | apply String.eqb_refl].
Qed.

Lemma length_pos_nonempty (s : string) :
  (0 <? String.length s)%nat = true <-> s <> "".
Proof.
  destruct s; simpl; split; intros H; try congruence; try reflexivity.
  discriminate.
Qed.

Section LinkFacts.
Context {E : Externals}.

Lemma pageLinks_snoc (linkObjs : list Link) (linkRef : Link) :
  pageLinks (linkObjs ++ [linkRef]) =
  let links := pageLinks linkObjs in
  let path := Path (l_Url linkRef) in
  if (0 <? String.length path)%nat then
    if negb (uriIsInLinkItems links path)
    then go.append links {| li_Uri := path; li_Title := l_Text linkRef |}
    else links
  else links.
Proof. unfold pageLinks. rewrite fold_left_app. reflexivity. Qed.

(** What the loop has collected after any number of links. *)
Lemma pageLinks_collected (linkObjs : list Link) :
  (forall item, item ∈ go.elems (pageLinks linkObjs) ->
     exists before linkRef after,
       linkObjs = before ++ linkRef :: after
       /\ item = {| li_Uri := Path (l_Url linkRef); li_Title := l_Text linkRef |}
       /\ Path (l_Url linkRef) <> ""
       /\ forall earlier, earlier ∈ before ->
            Path (l_Url earlier) <> Path (l_Url linkRef))
  /\ NoDup (li_Uri <$> go.elems (pageLinks linkObjs))
  /\ (forall linkRef, linkRef ∈ linkObjs -> Path (l_Url linkRef) <> "" ->
        Path (l_Url linkRef) ∈ li_Uri <$> go.elems (pageLinks linkObjs)).
Proof.
  induction linkObjs as [|x l (IHfirst & IHnodup & IHall)] using rev_ind.
  - repeat split.
    + intros item Hin. inversion Hin.
    + constructor.
    + intros linkRef Hin. inversion Hin.
  - rewrite pageLinks_snoc. cbv zeta.
    assert (forall item, item ∈ go.elems (pageLinks l) ->
              exists before linkRef after,
                l ++ [x] = before ++ linkRef :: after
                /\ item = {| li_Uri := Path (l_Url linkRef); li_Title := l_Text linkRef |}
                /\ Path (l_Url linkRef) <> ""
                /\ forall earlier, earlier ∈ before ->
                     Path (l_Url earlier) <> Path (l_Url linkRef)) as Hkeep.
    { intros item Hin.
      destruct (IHfirst item Hin) as (before & linkRef & after & -> & Hitem & Hne & Hfirst).
      exists before, linkRef, (after ++ [x]).
      rewrite <- app_assoc. repeat split; assumption. }
    destruct (0 <? String.length (Path (l_Url x)))%nat eqn:Hlen.
    + apply length_pos_nonempty in Hlen.
      destruct (uriIsInLinkItems (pageLinks l) (Path (l_Url x))) eqn:Hseen; cbn [negb].
      * (* a path already collected: nothing changes *)
        apply uriIsInLinkItems_elem in Hseen.
        repeat split; [exact Hkeep | exact IHnodup |].
        intros linkRef Hin Hne. apply elem_of_app in Hin as [Hin | Hin].
        -- apply IHall; assumption.
        -- apply list_elem_of_singleton in Hin as ->. exact Hseen.
      * (* a new path: one more entry, at the end *)
        assert (Path (l_Url x) ∉ li_Uri <$> go.elems (pageLinks l)) as Hnew.
        { intros Hin. apply uriIsInLinkItems_elem in Hin. congruence. }
        unfold go.append. cbn [go.elems]. repeat split.
        -- intros item Hin. apply elem_of_app in Hin as [Hin | Hin].
           ++ apply Hkeep, Hin.
           ++ apply list_elem_of_singleton in Hin as ->.
              exists l, x, []. repeat split; [exact Hlen|].
              intros earlier Hearlier Heq. apply Hnew.
              rewrite <- Heq. apply IHall; [exact Hearlier|]. rewrite Heq. exact Hlen.
        -- rewrite fmap_app. apply NoDup_app. repeat split.
           ++ exact IHnodup.
           ++ intros uri Hin Hlast. apply list_elem_of_singleton in Hlast as ->.
              apply Hnew, Hin.
           ++ apply NoDup_singleton.
        -- intros linkRef Hin Hne. rewrite fmap_app. apply elem_of_app.
           apply elem_of_app in Hin as [Hin | Hin].
           ++ left. apply IHall; assumption.
           ++ right. apply list_elem_of_singleton in Hin as ->.
              apply list_elem_of_singleton. reflexivity.
    + (* a link whose path is empty is passed over *)
      assert (Path (l_Url x) = "") as Hempty.
      { destruct (Path (l_Url x)); [reflexivity | discriminate]. }
      repeat split; [exact Hkeep | exact IHnodup |].
      intros linkRef Hin Hne. apply elem_of_app in Hin as [Hin | Hin].
      * apply IHall; assumption.
      * apply list_elem_of_singleton in Hin as ->. congruence.
Qed.

Lemma readBlogArticles_browser (bow : Browser) (out : list Article) (bow' : Browser) :
  readBlogArticles bow = go.Returned (out, bow') -> bow' = afterRemoval bow.
Proof.
  unfold readBlogArticles. destruct (go.sliceTo _ _); [|discriminate].
  intros [= _ <-]. reflexivity.
Qed.

Lemma readLiveBlogPage_pageLinks (uri : string) (w : World) (page : Page) (w' : World) :
  readLiveBlogPage uri w = go.Returned (page, w') ->
  p_Links page = pageLinks (linksSeen uri w).
Proof.
  unfold readLiveBlogPage, linksSeen, mbind, M_bind, Open, lift, mret, M_ret.
  destruct (web w uri) as [dom|]; simpl.
  - destruct (readBlogArticles _) as [[articles bow]|msg] eqn:Hread; [|discriminate].
    apply readBlogArticles_browser in Hread as ->.
    intros [= <- _]. reflexivity.
  - intros [= <- _]. reflexivity.
Qed.

(** C9: every entry of the page's links is made from a link of the document:
    its uri is the path of that link's URL and nothing else, the path is not
    empty, and the link is the first one with that path, whose text gives the
    title; no two entries share a uri; and every link with a non-empty path
    is represented. *)
Theorem readLiveBlogPage_links (uri : string) (w : World) (page : Page) (w' : World) :
  readLiveBlogPage uri w = go.Returned (page, w') ->
  let items := go.elems (p_Links page) in
  (forall item, item ∈ items ->
     exists before linkRef after,
       linksSeen uri w = before ++ linkRef :: after
       /\ item = {| li_Uri := Path (l_Url linkRef); li_Title := l_Text linkRef |}
       /\ Path (l_Url linkRef) <> ""
       /\ forall earlier, earlier ∈ before ->
            Path (l_Url earlier) <> Path (l_Url linkRef))
  /\ NoDup (li_Uri <$> items)
  /\ (forall linkRef, linkRef ∈ linksSeen uri w -> Path (l_Url linkRef) <> "" ->
        Path (l_Url linkRef) ∈ li_Uri <$> items).
Proof.
  intros Hlive. cbv zeta.
  rewrite (readLiveBlogPage_pageLinks _ _ _ _ Hlive).
  apply pageLinks_collected.
Qed.

End LinkFacts.

Lemma readLiveBlogPage_links_witness :
  exists page w',
    readLiveBlogPage (E := Sample.externals) "http://example.com/blog" Sample.emptyStore
    = go.Returned (page, w')
    /\ go.elems (p_Links page)
       = [{| li_Title := "T"; li_Uri := "/p1" |}; {| li_Title := "out"; li_Uri := "/p2" |}]
    /\ NoDup (li_Uri <$> go.elems (p_Links page)).
Proof.
  assert (exists page w',
             readLiveBlogPage (E := Sample.externals) "http://example.com/blog"
               Sample.emptyStore = go.Returned (page, w')
             /\ go.elems (p_Links page)
                = [{| li_Title := "T"; li_Uri := "/p1" |};
                   {| li_Title := "out"; li_Uri := "/p2" |}])
    as (page & w' & Hlive & Hitems).
  { do 2 eexists. split; [vm_compute; reflexivity|]. vm_compute. reflexivity. }
  exists page, w'. split; [exact Hlive|]. split; [exact Hitems|].
  exact (proj1 (proj2 (readLiveBlogPage_links (E := Sample.externals) _ _ _ _ Hlive))).
Defined.

(** ** Further properties *)

Section Further.
Context {E : Externals}.

Lemma collectLinks_snoc (linkEls : list Node) (linkEl : Node) :
  collectLinks (linkEls ++ [linkEl]) =
  let links := collectLinks linkEls in
  match goquery.Attr linkEl "href" with
  | Some val =>
      if negb (uriIsInLinkItems links val)
      then go.append links {| li_Uri := val; li_Title := goquery.Text linkEl |}
      else links
  | None => links
  end.
Proof. unfold collectLinks. rewrite fold_left_app. reflexivity. Qed.

Lemma collectLinks_NoDup (linkEls : list Node) :
  NoDup (li_Uri <$> go.elems (collectLinks linkEls)).
Proof.
  induction linkEls as [|linkEl l IH] using rev_ind; [constructor|].
  rewrite collectLinks_snoc. cbv zeta.
  destruct (goquery.Attr linkEl "href") as [val|]; [|exact IH].
  destruct (uriIsInLinkItems (collectLinks l) val) eqn:Hseen; cbn [negb]; [exact IH|].
  unfold go.append. cbn [go.elems]. rewrite fmap_app. apply NoDup_app.
  repeat split; [exact IH | | apply NoDup_singleton].
  intros uri Hin Hlast. cbn [fmap list_fmap li_Uri] in Hlast.
  apply list_elem_of_singleton in Hlast as ->.
  apply uriIsInLinkItems_elem in Hin. congruence.
Qed.

(** The links of every returned article have pairwise distinct uris. *)
Theorem readBlogArticles_links_distinct (bow : Browser) (out : list Article)
    (bow' : Browser) (article : Article) :
  readBlogArticles bow = go.Returned (out, bow') ->
  article ∈ out ->
  NoDup (li_Uri <$> go.elems (a_Links article)).
Proof.
  intros Hret Hin.
  apply list_elem_of_lookup in Hin as [i Hi].
  pose proof (lookup_lt_Some _ _ _ Hi) as Hlt.
  rewrite (readBlogArticles_length _ _ _ Hret) in Hlt.
  destruct (lookup_lt_is_Some_2 _ _ Hlt) as [candidate Hcandidate].
  rewrite (readBlogArticles_lookup _ _ _ _ _ Hret Hcandidate) in Hi.
  injection Hi as <-. unfold articleOf.
  destruct (Html candidate); [|constructor].
  destruct (goquery.Find candidate _) as [|titleElement ?]; [constructor|].
  destruct (goquery.Find titleElement _); [constructor|].
  apply collectLinks_NoDup.
Qed.

(** An address that does not open yields the page that only carries it. *)
Theorem readLiveBlogPage_absent (uri : string) (w : World) :
  web w uri = None ->
  readLiveBlogPage uri w
  = go.Returned
      ({| p_Uri := uri; p_Exists := false; p_Cached := false; p_Title := "";
          p_Articles := None; p_Links := None |},
       logged (EvOpen uri) w).
Proof.
  intros Hweb. unfold readLiveBlogPage, mbind, M_bind, Open. rewrite Hweb. reflexivity.
Qed.

(** With the cache in use, an entry that decodes is returned marked as
    cached; the page is not opened and nothing is written. *)
Theorem readBlogPage_cache_hit (path scheme val : string) (expiration : Z)
    (w : World) (page : Page) :
  up w = true ->
  kv w !! ("page:" +:+ path) = Some (val, expiration) ->
  Unmarshal val emptyPage = (page, true) ->
  exists w' : World,
    readBlogPage path scheme true w = go.Returned ((setCached page, true), w')
    /\ kv w' = kv w
    /\ log w' = log w ++ [EvGet ("page:" +:+ path)].
Proof.
  intros Hup Hkey Hdecoded. eexists. split.
  - apply readBlogPage_hit. rewrite (getCache_present _ _ _ _ Hup Hkey), Hdecoded.
    reflexivity.
  - split; reflexivity.
Qed.

End Further.

Lemma readBlogArticles_links_distinct_witness :
  exists out bow',
    readBlogArticles (E := Sample.externals) (Sample.browserOn Sample.threeArticles)
    = go.Returned (out, bow')
    /\ Forall (fun article => NoDup (li_Uri <$> go.elems (a_Links article))) out.
Proof.
  assert (exists out bow',
             readBlogArticles (E := Sample.externals)
               (Sample.browserOn Sample.threeArticles) = go.Returned (out, bow'))
    as (out & bow' & Hret) by (do 2 eexists; vm_compute; reflexivity).
  exists out, bow'. split; [exact Hret|].
  apply Forall_forall. intros article Hin.
  exact (readBlogArticles_links_distinct (E := Sample.externals) _ _ _ article Hret Hin).
Defined.

Lemma readLiveBlogPage_absent_witness :
  web Sample.emptyStore "http://example.com/gone" = None
  /\ readLiveBlogPage (E := Sample.externals) "http://example.com/gone" Sample.emptyStore
     = go.Returned
         ({| p_Uri := "http://example.com/gone"; p_Exists := false; p_Cached := false;
             p_Title := ""; p_Articles := None; p_Links := None |},
          logged (EvOpen "http://example.com/gone") Sample.emptyStore).
Proof.
  split; [reflexivity|].
  exact (readLiveBlogPage_absent (E := Sample.externals) "http://example.com/gone"
           Sample.emptyStore eq_refl).
Defined.

Lemma readBlogPage_cache_hit_witness :
  exists w',
    readBlogPage (E := Sample.decoding) "example.com/blog" "http" true Sample.brokenStore
    = go.Returned ((setCached Sample.blogPage, true), w')
    /\ kv w' = kv Sample.brokenStore.
Proof.
  assert (kv Sample.brokenStore !! "page:example.com/blog" = Some ("not json", 1%Z))
    as Hkey by (vm_compute; reflexivity).
  destruct (readBlogPage_cache_hit (E := Sample.decoding) "example.com/blog" "http"
              "not json" 1%Z Sample.brokenStore Sample.blogPage eq_refl Hkey eq_refl)
    as (w' & Hrun & Hkv & _).
  exists w'. split; assumption.
Defined.

(** * Further properties of the code *)

(** ** Cleaning and counting words *)

Lemma splitFrom_length (sep : string) (s : string) :
  forall (skip : nat) (cur : string), (1 <= length (strings.splitFrom sep skip cur s))%nat.
Proof.
  induction s as [|c s IH]; intros skip cur; cbn [strings.splitFrom length]; [lia|].
  destruct skip as [|k]; [|apply IH].
  destruct (strings.HasPrefix _ _); [cbn [length]; lia | apply IH].
Qed.

(** The word count of a node is never zero: the text is split on spaces, and
    a split has at least one piece, be the text empty. *)
Theorem extractNumWords_positive (selection : Node) :
  (1 <= extractNumWords selection)%Z
  /\ (1 <= length (extractWords selection))%nat.
Proof.
  assert (1 <= length (extractWords selection))%nat as Hwords
    by apply splitFrom_length.
  split; [unfold extractNumWords; lia | exact Hwords].
Qed.

Lemma hasSpaceRun_replaceRuns (s : string) :
  forall st : regexp.runState,
    match st with
    | regexp.Outside => hasSpaceRun (regexp.replaceRuns " " st s) = false
    | regexp.One _ =>
        exists w tail,
          regexp.replaceRuns " " st s = String w tail
          /\ startsSpace tail = false /\ hasSpaceRun tail = false
    | regexp.Run =>
        startsSpace (regexp.replaceRuns " " st s) = false
        /\ hasSpaceRun (regexp.replaceRuns " " st s) = false
    end.
Proof.
  induction s as [|c s IH]; intros st.
  - destruct st as [|c0|]; cbn [regexp.replaceRuns]; [reflexivity | | split; reflexivity].
    exists c0, EmptyString. repeat split.
  - cbn [regexp.replaceRuns]. destruct (regexp.isSpace c) eqn:Hc.
    + destruct st as [|c0|].
      * destruct (IH (regexp.One c)) as (w & tail & -> & Hstart & Hrun).
        cbn [hasSpaceRun]. rewrite Hstart, Hrun, andb_false_r. reflexivity.
      * destruct (IH regexp.Run) as [Hstart Hrun].
        exists " "%char, (regexp.replaceRuns " " regexp.Run s). repeat split; assumption.
      * exact (IH regexp.Run).
    + pose proof (IH regexp.Outside) as Hout.
      destruct st as [|c0|].
      * cbn [hasSpaceRun]. rewrite Hc, Hout. reflexivity.
      * exists c0, (String c (regexp.replaceRuns " " regexp.Outside s)).
        repeat split; [exact Hc|].
        cbn [hasSpaceRun]. rewrite Hc, Hout. reflexivity.
      * split; [exact Hc|]. cbn [hasSpaceRun]. rewrite Hc, Hout. reflexivity.
Qed.

(** A cleaned text holds no two adjacent white-space bytes: every run of two
    or more has become one space. *)
Theorem removeSpaces_no_run (text : string) :
  hasSpaceRun (removeSpaces text) = false.
Proof. exact (hasSpaceRun_replaceRuns _ regexp.Outside). Qed.

Lemma concat_cons_nonempty (sep x : string) (l : list string) :
  l <> [] -> String.concat sep (x :: l) = x +:+ sep +:+ String.concat sep l.
Proof. destruct l; [congruence | reflexivity]. Qed.

Lemma append_nil_r (s : string) : s +:+ "" = s.
Proof.
  induction s as [|c s IH]; [reflexivity|].
  change (String c (s +:+ "") = String c s). f_equal. exact IH.
Qed.

Lemma ContainsByte_append (a b : string) (c : ascii) :
  strings.ContainsByte (a +:+ b) c = strings.ContainsByte a c || strings.ContainsByte b c.
Proof.
  induction a as [|x a IH]; [reflexivity|].
  change (strings.ContainsByte (String x (a +:+ b)) c
          = strings.ContainsByte (String x a) c || strings.ContainsByte b c).
  cbn [strings.ContainsByte]. rewrite IH, orb_assoc. reflexivity.
Qed.

Lemma HasPrefix_space (c : ascii) (s : string) :
  strings.HasPrefix (String c s) " " = Ascii.eqb c " ".
Proof. cbn [strings.HasPrefix]. destruct (Ascii.eqb c " "), s; reflexivity. Qed.

Lemma splitFrom_space (s : string) :
  forall cur : string,
    strings.ContainsByte cur " " = false ->
    strings.Join (strings.splitFrom " " 0 cur s) " " = cur +:+ s
    /\ Forall (fun word => strings.ContainsByte word " " = false)
         (strings.splitFrom " " 0 cur s).
Proof.
  induction s as [|c s IH]; intros cur Hcur.
  - cbn [strings.splitFrom]. split; [symmetry; apply append_nil_r|].
    constructor; [exact Hcur | constructor].
  - cbn [strings.splitFrom]. rewrite HasPrefix_space.
    destruct (Ascii.eqb c " ") eqn:Hc.
    + apply Ascii.eqb_eq in Hc as ->.
      destruct (IH EmptyString eq_refl) as [Hjoin Hwords].
      change (String.length " " - 1)%nat with 0%nat. split.
      * unfold strings.Join in *. rewrite concat_cons_nonempty.
        -- rewrite Hjoin. reflexivity.
        -- intros Hnil. pose proof (splitFrom_length " " s 0 EmptyString) as Hlen.
           rewrite Hnil in Hlen. cbn in Hlen. lia.
      * constructor; assumption.
    + assert (strings.ContainsByte (cur +:+ String c EmptyString) " " = false) as Hcur'.
      { rewrite ContainsByte_append, Hcur. cbn [strings.ContainsByte].
        rewrite Ascii.eqb_sym, Hc. reflexivity. }
      destruct (IH _ Hcur') as [Hjoin Hwords]. split; [|exact Hwords].
      rewrite Hjoin, append_assoc. reflexivity.
Qed.

(** The words of a node hold no space, and joined by single spaces they give
    back the cleaned text of the node. *)
Theorem extractWords_join (selection : Node) :
  strings.Join (extractWords selection) " " = removeSpaces (goquery.Text selection)
  /\ Forall (fun word => strings.ContainsByte word " " = false) (extractWords selection).
Proof. exact (splitFrom_space _ EmptyString eq_refl). Qed.

(** ** Nodes, by induction on their children *)

Lemma Node_children_ind (P : Node -> Prop) :
  (forall data, P (TextNode data)) ->
  (forall data, P (CommentNode data)) ->
  (forall data, P (DoctypeNode data)) ->
  (forall tag attrs cs, Forall P cs -> P (ElementNode tag attrs cs)) ->
  forall n, P n.
Proof.
  intros Htext Hcomment Hdoctype Helement.
  fix IH 1.
  intros [data|data|data|tag attrs cs];
    [apply Htext | apply Hcomment | apply Hdoctype |].
  apply Helement. induction cs as [|c cs IHcs]; constructor; [apply IH | exact IHcs].
Qed.

Lemma MatchAll_elements (tags : list string) (n : Node) :
  Forall (fun m => NodeType m = 3%Z) (goquery.MatchAll tags n).
Proof.
  induction n as [data|data|data|tag attrs cs IH] using Node_children_ind;
    try (cbn; constructor).
  cbn [goquery.MatchAll]. apply Forall_app. split.
  - destruct (goquery.hasTag _ _); constructor; [reflexivity | constructor].
  - induction IH as [|c cs Hc _ IHcs]; [constructor|].
    apply Forall_app. split; assumption.
Qed.

Lemma hasTextNodes_elements (nodes : list Node) :
  Forall (fun m => NodeType m = 3%Z) nodes -> hasTextNodes nodes = false.
Proof.
  induction 1 as [|node nodes Hnode _ IH]; [reflexivity|].
  cbn [hasTextNodes]. rewrite Hnode. exact IH.
Qed.

(** [hasTextNodes] looks at the nodes of the selection themselves, not below
    them: on whatever [Find] selects, which are elements, it answers false. *)
Theorem hasTextNodes_Find (roots : list Node) (n : Node) (tags : list string) :
  hasTextNodes (goquery.FindIn roots tags) = false
  /\ hasTextNodes (goquery.Find n tags) = false.
Proof.
  assert (forall l, Forall (fun m => NodeType m = 3%Z) (goquery.FindIn l tags)) as Hall.
  { intros l. unfold goquery.FindIn. induction l as [|c l IH]; [constructor|].
    cbn [flat_map]. apply Forall_app. split; [apply MatchAll_elements | exact IH]. }
  split; apply hasTextNodes_elements, Hall.
Qed.

(** ** Noise removal *)

Lemma MatchAll_element (tags : list string) (tag : string)
    (attrs : list (string * string)) (cs : list Node) :
  goquery.MatchAll tags (ElementNode tag attrs cs) =
  (if goquery.hasTag tags (ElementNode tag attrs cs) then [ElementNode tag attrs cs] else [])
  ++ goquery.FindIn cs tags.
Proof.
  reflexivity.
Qed.

Lemma Removed_element (tags : list string) (tag : string)
    (attrs : list (string * string)) (cs : list Node) :
  goquery.Removed tags (ElementNode tag attrs cs) =
  ElementNode tag attrs
    (flat_map (fun c => if goquery.hasTag tags c then [] else [goquery.Removed tags c]) cs).
Proof.
  cbn [goquery.Removed]. f_equal.
  induction cs as [|c cs IH]; [reflexivity|]. cbn [flat_map]. rewrite <- IH.
  destruct (goquery.hasTag tags c); reflexivity.
Qed.

Lemma hasTag_Removed (tags removed : list string) (n : Node) :
  goquery.hasTag tags (goquery.Removed removed n) = goquery.hasTag tags n.
Proof. destruct n; reflexivity. Qed.

(** Once [Find(tags).Remove()] has run on a node, [Find(tags)] selects
    nothing below it. *)
Lemma Removed_Find (tags : list string) (n : Node) :
  goquery.Find (goquery.Removed tags n) tags = [].
Proof.
  induction n as [data|data|data|tag attrs cs IH] using Node_children_ind;
    try reflexivity.
  rewrite Removed_element. unfold goquery.Find, goquery.FindIn. cbn [goquery.Children].
  induction IH as [|c cs Hc _ IHcs]; [reflexivity|].
  cbn [flat_map]. destruct (goquery.hasTag tags c) eqn:Htag; [exact IHcs|].
  cbn [app flat_map]. rewrite IHcs, app_nil_r.
  destruct c as [data|data|data|tag' attrs' cs']; try reflexivity.
  rewrite Removed_element in *. rewrite MatchAll_element.
  change (goquery.hasTag tags (ElementNode tag' attrs' _)) with
    (goquery.hasTag tags (ElementNode tag' attrs' cs')).
  rewrite Htag. exact Hc.
Qed.

Section NoiseFacts.
Context {E : Externals}.

(** No candidate the extractor works on holds an image, svg, embed, iframe,
    object, style or script element any more; so neither the title, the
    permalink nor the links of an article are read from inside one. *)
Theorem candidates_noise_free (bow : Browser) (article : Node) :
  article ∈ candidates bow ->
  goquery.Find article noiseTags = [].
Proof.
  unfold candidates. intros Hin.
  apply list_elem_of_In, in_map_iff in Hin as (original & <- & _).
  apply Removed_Find.
Qed.

End NoiseFacts.

Lemma candidates_noise_free_witness :
  Forall (fun article => goquery.Find article noiseTags = [])
    (candidates (Sample.browserOn Sample.threeArticles)).
Proof.
  apply Forall_forall. intros article Hin.
  exact (candidates_noise_free (Sample.browserOn Sample.threeArticles) article Hin).
Defined.

(** ** The links of an article *)

(** Each link of an article is made from the first anchor of the candidate
    that carries its href, whose text gives the title; anchors without an
    href are passed over, and every href that occurs is represented -- the
    empty one too. *)
Theorem collectLinks_first (linkEls : list Node) :
  let items := go.elems (collectLinks linkEls) in
  (forall item, item ∈ items ->
     exists before linkEl after,
       linkEls = before ++ linkEl :: after
       /\ goquery.Attr linkEl "href" = Some (li_Uri item)
       /\ li_Title item = goquery.Text linkEl
       /\ forall earlier, earlier ∈ before ->
            goquery.Attr earlier "href" <> Some (li_Uri item))
  /\ (forall linkEl val, linkEl ∈ linkEls ->
        goquery.Attr linkEl "href" = Some val -> val ∈ li_Uri <$> items).
Proof.
  cbv zeta.
  induction linkEls as [|x l (IHfirst & IHall)] using rev_ind.
  - split; [intros item Hin | intros linkEl val Hin]; inversion Hin.
  - rewrite collectLinks_snoc. cbv zeta.
    assert (forall item, item ∈ go.elems (collectLinks l) ->
              exists before linkEl after,
                l ++ [x] = before ++ linkEl :: after
                /\ goquery.Attr linkEl "href" = Some (li_Uri item)
                /\ li_Title item = goquery.Text linkEl
                /\ forall earlier, earlier ∈ before ->
                     goquery.Attr earlier "href" <> Some (li_Uri item)) as Hkeep.
    { intros item Hin.
      destruct (IHfirst item Hin) as (before & linkEl & after & -> & Hhref & Htitle & Hfirst).
      exists before, linkEl, (after ++ [x]).
      rewrite <- app_assoc. repeat split; assumption. }
    destruct (goquery.Attr x "href") as [val|] eqn:Hhref.
    + destruct (uriIsInLinkItems (collectLinks l) val) eqn:Hseen; cbn [negb].
      * apply uriIsInLinkItems_elem in Hseen.
        split; [exact Hkeep|].
        intros linkEl val' Hin Hval. apply elem_of_app in Hin as [Hin | Hin].
        -- exact (IHall _ _ Hin Hval).
        -- apply list_elem_of_singleton in Hin as ->.
           rewrite Hhref in Hval. injection Hval as <-. exact Hseen.
      * assert (val ∉ li_Uri <$> go.elems (collectLinks l)) as Hnew.
        { intros Hin. apply uriIsInLinkItems_elem in Hin. congruence. }
        unfold go.append. cbn [go.elems]. split.
        -- intros item Hin. apply elem_of_app in Hin as [Hin | Hin].
           ++ apply Hkeep, Hin.
           ++ apply list_elem_of_singleton in Hin as ->.
              exists l, x, []. repeat split; [exact Hhref|].
              intros earlier Hearlier Hsame. apply Hnew.
              exact (IHall _ _ Hearlier Hsame).
        -- intros linkEl val' Hin Hval. rewrite fmap_app. apply elem_of_app.
           apply elem_of_app in Hin as [Hin | Hin].
           ++ left. exact (IHall _ _ Hin Hval).
           ++ right. apply list_elem_of_singleton in Hin as ->.
              rewrite Hhref in Hval. injection Hval as <-.
              apply list_elem_of_singleton. reflexivity.
    + split; [exact Hkeep|].
      intros linkEl val Hin Hval. apply elem_of_app in Hin as [Hin | Hin].
      * exact (IHall _ _ Hin Hval).
      * apply list_elem_of_singleton in Hin as ->. congruence.
Qed.

(** ** The live reader and the cache *)

Section ReaderFacts.
Context {E : Externals}.

Lemma readBlogArticles_cases (bow : Browser) :
  ((length (candidates bow) <= maxNum)%nat
   /\ exists out, readBlogArticles bow = go.Returned (out, afterRemoval bow)
                  /\ length out = length (candidates bow))
  \/ ((maxNum < length (candidates bow))%nat
      /\ readBlogArticles bow = go.Panicked "slice bounds out of range").
Proof.
  unfold readBlogArticles, go.sliceTo.
  rewrite fillOutput_filled, filled_length.
  destruct (Nat.leb_spec (length (candidates bow)) maxNum) as [Hle|Hgt].
  - left. split; [exact Hle|]. eexists. split; [reflexivity|].
    rewrite length_take, filled_length. lia.
  - right. split; [exact Hgt | reflexivity].
Qed.

Lemma readLiveBlogPage_crowded (uri : string) (w : World) (dom : list Node) :
  web w uri = Some dom ->
  (maxNum < length (candidates {| Dom := dom; PageUrl := uri |}))%nat ->
  readLiveBlogPage uri w = go.Panicked "slice bounds out of range".
Proof.
  intros Hweb Hmany.
  unfold readLiveBlogPage, mbind, M_bind, Open, lift. rewrite Hweb. cbn [option_map].
  destruct (readBlogArticles_cases {| Dom := dom; PageUrl := uri |})
    as [(Hle & _) | (_ & ->)]; [lia | reflexivity].
Qed.

(** The live reader fails in one case only: the address opens to a document
    with more than a hundred article elements, and then the call panics.
    Otherwise it returns a page that carries the address, is not marked as
    cached, exists exactly when the address opened, and has one article slot
    per candidate; the only call it makes outside is the opening. *)
Theorem readLiveBlogPage_outcome (uri : string) (w : World) :
  (exists page,
      readLiveBlogPage uri w = go.Returned (page, logged (EvOpen uri) w)
      /\ p_Uri page = uri /\ p_Cached page = false
      /\ match web w uri with
         | Some dom =>
             p_Exists page = true
             /\ (length (candidates {| Dom := dom; PageUrl := uri |}) <= maxNum)%nat
             /\ length <$> p_Articles page
                = Some (length (candidates {| Dom := dom; PageUrl := uri |}))
         | None =>
             p_Exists page = false /\ p_Title page = ""
             /\ p_Articles page = None /\ p_Links page = None
         end)
  \/ (exists dom,
        web w uri = Some dom
        /\ (maxNum < length (candidates {| Dom := dom; PageUrl := uri |}))%nat
        /\ readLiveBlogPage uri w = go.Panicked "slice bounds out of range").
Proof.
  unfold readLiveBlogPage, mbind, M_bind, Open, lift, mret, M_ret.
  destruct (web w uri) as [dom|]; cbn [option_map].
  - destruct (readBlogArticles_cases {| Dom := dom; PageUrl := uri |})
      as [(Hle & out & -> & Hlen) | (Hgt & ->)].
    + left. eexists. split; [reflexivity|].
      cbn. rewrite Hlen. repeat split; assumption.
    + right. exists dom. repeat split; assumption.
  - left. eexists. split; [reflexivity|]. repeat split.
Qed.

Lemma getCache_failed (key : string) (w : World) :
  up w = false \/ kv w !! key = None ->
  exists msg,
    getCache key w = go.Returned ((emptyPage, Some msg), logged (EvGet key) w).
Proof.
  intros Hmiss. unfold getCache, mbind, M_bind, redis.Get.
  destruct (up w); [|eauto].
  destruct Hmiss as [Hdown | ->]; [discriminate | eauto].
Qed.

(** A store that cannot be reached, or that has no entry for the key, sends
    [readBlogPage] to the live reader even when the cache is in use: the
    fresh page is returned with [isCached = false] after one attempt to
    write it, which only a reachable store keeps. *)
Theorem readBlogPage_miss (path scheme : string) (cached : bool) (w : World)
    (data : Page) (w1 : World) :
  up w = false \/ kv w !! ("page:" +:+ path) = None ->
  readLiveBlogPage (scheme +:+ "://" +:+ path) w = go.Returned (data, w1) ->
  let key := "page:" +:+ path in
  let value := json.MarshalIndent data "" " " in
  exists w' : World,
    readBlogPage path scheme cached w = go.Returned ((data, false), w')
    /\ log w' = log w ++ [EvGet key; EvOpen (scheme +:+ "://" +:+ path);
                          EvSet key value (time.minutes 1440)]
    /\ kv w' = (if up w then <[key := (value, time.minutes 1440)]> (kv w) else kv w)
    /\ up w' = up w.
Proof.
  intros Hmiss Hlive. cbv zeta.
  destruct (getCache_failed _ _ Hmiss) as (msg & Hget).
  eexists. split.
  - exact (readBlogPage_fresh _ _ _ _ _ _ _ _ Hget eq_refl Hlive).
  - repeat split. cbn [log stored logged]. rewrite <- !app_assoc. reflexivity.
Qed.

(** Write, then read: once a fresh page went to a reachable store, the next
    read through the cache -- under any scheme, since the key leaves the
    scheme out -- returns that page marked as cached without opening the
    address again, provided the decoder reads the stored text back. *)
Theorem readBlogPage_round_trip (path scheme scheme' : string) (cached : bool)
    (w : World) (data : Page) (w1 : World) :
  up w = true ->
  readBlogPage path scheme cached w = go.Returned ((data, false), w1) ->
  Unmarshal (json.MarshalIndent data "" " ") emptyPage = (data, true) ->
  readBlogPage path scheme' true w1
  = go.Returned ((setCached data, true), logged (EvGet ("page:" +:+ path)) w1).
Proof.
  intros Hup Hrun Hdecode.
  destruct (readBlogPage_returned _ _ _ _ _ _ Hrun)
    as [(page & _ & _ & [=] & _) | (data' & _ & [= <-] & ->)].
  apply readBlogPage_hit.
  erewrite getCache_present.
  - rewrite Hdecode. reflexivity.
  - exact Hup.
  - cbn [kv stored logged up]. rewrite Hup. apply lookup_insert_eq.
Qed.

End ReaderFacts.

Lemma readBlogPage_miss_witness :
  exists data w1 w',
    up Cases.downStore = false
    /\ readLiveBlogPage (E := Sample.externals) "http://example.com/blog" Cases.downStore
       = go.Returned (data, w1)
    /\ readBlogPage (E := Sample.externals) "example.com/blog" "http" true Cases.downStore
       = go.Returned ((data, false), w')
    /\ kv w' = kv Cases.downStore.
Proof.
  assert (exists data w1,
             readLiveBlogPage (E := Sample.externals) "http://example.com/blog"
               Cases.downStore = go.Returned (data, w1)) as (data & w1 & Hlive)
    by (do 2 eexists; vm_compute; reflexivity).
  destruct (readBlogPage_miss (E := Sample.externals) "example.com/blog" "http" true
              Cases.downStore data w1 (or_introl eq_refl) Hlive)
    as (w' & Hrun & _ & Hkv & _).
  exists data, w1, w'. split; [reflexivity|]. split; [exact Hlive|].
  split; [exact Hrun | exact Hkv].
Defined.

Lemma readBlogPage_round_trip_witness :
  exists w1,
    readBlogPage (E := Cases.goneDecoder) "example.com/gone" "http" true Sample.emptyStore
    = go.Returned ((Cases.gonePage, false), w1)
    /\ readBlogPage (E := Cases.goneDecoder) "example.com/gone" "https" true w1
       = go.Returned
           ((setCached Cases.gonePage, true), logged (EvGet "page:example.com/gone") w1).
Proof.
  assert (exists w1,
             readBlogPage (E := Cases.goneDecoder) "example.com/gone" "http" true
               Sample.emptyStore = go.Returned ((Cases.gonePage, false), w1))
    as (w1 & Hrun) by (eexists; vm_compute; reflexivity).
  exists w1. split; [exact Hrun|].
  refine (readBlogPage_round_trip (E := Cases.goneDecoder) "example.com/gone" "http"
            "https" true Sample.emptyStore Cases.gonePage w1 eq_refl Hrun _).
  vm_compute. reflexivity.
Defined.

(** ** Page statistics *)

Lemma countBlocks_entries (roots : list Node) (detached : list dom.ref)
    (tags : list dom.pointer) :
  forall (ps : PageStats) (l : list CountItem),
    ps_Counts ps = Some l ->
    countBlocks roots detached tags ps
    = {| ps_Uri := ps_Uri ps; ps_Exists := ps_Exists ps;
         ps_Counts := Some (l ++ flat_map (blockEntry roots detached) tags);
         ps_Words := ps_Words ps |}.
Proof.
  unfold countBlocks.
  induction tags as [|tag tags IH]; intros ps l Hl.
  - cbn [fold_left flat_map]. rewrite app_nil_r, <- Hl. destruct ps; reflexivity.
  - cbn [fold_left flat_map]. unfold blockEntry at 1. cbv zeta.
    destruct (16 <? _)%Z.
    + erewrite IH; [|cbn [addCountItem ps_Counts go.append]; rewrite Hl; reflexivity].
      cbn [addCountItem ps_Uri ps_Exists ps_Words go.elems].
      rewrite <- app_assoc. reflexivity.
    + rewrite (IH ps l Hl). reflexivity.
Qed.

Lemma blockEntry_threshold (roots : list Node) (detached : list dom.ref)
    (tags : list dom.pointer) :
  Forall (fun c => (16 < Value c)%Z) (flat_map (blockEntry roots detached) tags).
Proof.
  induction tags as [|tag tags IH]; [constructor|].
  cbn [flat_map]. apply Forall_app. split; [|exact IH].
  unfold blockEntry. cbv zeta.
  destruct (16 <? _)%Z eqn:Hwords; [|constructor].
  apply Z.ltb_lt in Hwords. repeat constructor. exact Hwords.
Qed.

Lemma extractNumWordsOf_positive (selection : list Node) :
  (1 <= extractNumWordsOf selection)%Z.
Proof.
  unfold extractNumWordsOf, strings.Split.
  pose proof (splitFrom_length " " (removeSpaces (goquery.TextOf selection)) 0 EmptyString).
  lia.
Qed.

Section DiscoverFacts.
Context {E : Externals}.

Lemma discoverLivePage_opened (uri : string) (w : World) (dom : list Node) :
  web w uri = Some dom ->
  exists links articleTags sectionTags tableTags words numInnerLinks wordsNotInLinks,
    discoverLivePage uri w
    = go.Returned
        ({| ps_Uri := uri; ps_Exists := true;
            ps_Counts :=
              Some ([{| Key := "links"; Value := links |};
                     {| Key := "articleTags"; Value := articleTags |};
                     {| Key := "sectionTags"; Value := sectionTags |};
                     {| Key := "tableTags"; Value := tableTags |};
                     {| Key := "words"; Value := words |};
                     {| Key := "numInnerLinks"; Value := numInnerLinks |};
                     {| Key := "wordsNotInLinks"; Value := wordsNotInLinks |}]
                    ++ flat_map (blockEntry dom (detachedForBlocks dom)) (blocksOf dom));
            ps_Words := None |},
         logged (EvOpen uri) w)
    /\ (0 <= links /\ 0 <= articleTags /\ 0 <= sectionTags /\ 0 <= tableTags
        /\ 1 <= words /\ 0 <= numInnerLinks /\ 1 <= wordsNotInLinks)%Z.
Proof.
  intros Hweb. unfold discoverLivePage, mbind, M_bind, Open, mret, M_ret.
  rewrite Hweb. cbn [option_map Dom]. cbv zeta.
  do 7 eexists. split.
  - f_equal. f_equal. apply countBlocks_entries. reflexivity.
  - repeat split; try apply Nat2Z.is_nonneg; apply extractNumWordsOf_positive.
Qed.

Lemma discoverLivePage_closed (uri : string) (w : World) :
  web w uri = None ->
  discoverLivePage uri w
  = go.Returned (newPageStats uri false, logged (EvOpen uri) w).
Proof.
  intros Hweb. unfold discoverLivePage, mbind, M_bind, Open. rewrite Hweb. reflexivity.
Qed.

(** An address that does not open gives statistics without any count. *)
Theorem discoverLivePage_absent (uri : string) (w : World) :
  web w uri = None ->
  discoverLivePage uri w
  = go.Returned
      ({| ps_Uri := uri; ps_Exists := false; ps_Counts := None; ps_Words := None |},
       logged (EvOpen uri) w).
Proof. exact (discoverLivePage_closed uri w). Qed.

(** For an address that opens, the statistics always return -- whatever the
    number of articles -- after the opening as only call outside: seven
    counts in a fixed order (links, articleTags, sectionTags, tableTags,
    words, numInnerLinks, wordsNotInLinks), then the blocks, each above
    sixteen words.  No count is negative, the two word counts are at least
    one, and the list of words stays unset. *)
Theorem discoverLivePage_counts (uri : string) (w : World) (dom : list Node) :
  web w uri = Some dom ->
  exists links articleTags sectionTags tableTags words numInnerLinks wordsNotInLinks blocks,
    discoverLivePage uri w
    = go.Returned
        ({| ps_Uri := uri; ps_Exists := true;
            ps_Counts :=
              Some ([{| Key := "links"; Value := links |};
                     {| Key := "articleTags"; Value := articleTags |};
                     {| Key := "sectionTags"; Value := sectionTags |};
                     {| Key := "tableTags"; Value := tableTags |};
                     {| Key := "words"; Value := words |};
                     {| Key := "numInnerLinks"; Value := numInnerLinks |};
                     {| Key := "wordsNotInLinks"; Value := wordsNotInLinks |}]
                    ++ blocks);
            ps_Words := None |},
         logged (EvOpen uri) w)
    /\ (0 <= links /\ 0 <= articleTags /\ 0 <= sectionTags /\ 0 <= tableTags
        /\ 1 <= words /\ 0 <= numInnerLinks /\ 1 <= wordsNotInLinks)%Z
    /\ Forall (fun c => (16 < Value c)%Z) blocks.
Proof.
  intros Hweb.
  destruct (discoverLivePage_opened uri w dom Hweb)
    as (links & articleTags & sectionTags & tableTags & words & numInnerLinks
        & wordsNotInLinks & Hrun & Hbounds).
  exists links, articleTags, sectionTags, tableTags, words, numInnerLinks,
    wordsNotInLinks. eexists. split; [exact Hrun|]. split; [exact Hbounds|].
  apply blockEntry_threshold.
Qed.

End DiscoverFacts.

Lemma discoverLivePage_absent_witness :
  web Cases.statsWorld "http://example.com/none" = None
  /\ discoverLivePage (E := Sample.externals) "http://example.com/none" Cases.statsWorld
     = go.Returned
         ({| ps_Uri := "http://example.com/none"; ps_Exists := false;
             ps_Counts := None; ps_Words := None |},
          logged (EvOpen "http://example.com/none") Cases.statsWorld).
Proof.
  split; [reflexivity|].
  exact (discoverLivePage_absent (E := Sample.externals) "http://example.com/none"
           Cases.statsWorld eq_refl).
Defined.

Lemma discoverLivePage_counts_witness :
  exists ps w',
    web Cases.statsWorld "http://example.com/stats"
    = Some (Sample.document Cases.statsBody)
    /\ discoverLivePage (E := Sample.externals) "http://example.com/stats" Cases.statsWorld
       = go.Returned (ps, w')
    /\ go.elems (ps_Counts ps)
       = [{| Key := "links"; Value := 2 |};
          {| Key := "articleTags"; Value := 0 |};
          {| Key := "sectionTags"; Value := 1 |};
          {| Key := "tableTags"; Value := 0 |};
          {| Key := "words"; Value := 19 |};
          {| Key := "numInnerLinks"; Value := 2 |};
          {| Key := "wordsNotInLinks"; Value := 18 |};
          {| Key := "div#x"; Value := 18 |};
          {| Key := "div#x aside.foo"; Value := 17 |}].
Proof.
  destruct (discoverLivePage_counts (E := Sample.externals) "http://example.com/stats"
              Cases.statsWorld (Sample.document Cases.statsBody) eq_refl)
    as (links & articleTags & sectionTags & tableTags & words & numInnerLinks
        & wordsNotInLinks & blocks & Hrun & _).
  do 2 eexists. split; [reflexivity|]. split; [exact Hrun|].
  assert (exists ps w',
             discoverLivePage (E := Sample.externals) "http://example.com/stats"
               Cases.statsWorld = go.Returned (ps, w')
             /\ go.elems (ps_Counts ps)
                = [{| Key := "links"; Value := 2 |};
                   {| Key := "articleTags"; Value := 0 |};
                   {| Key := "sectionTags"; Value := 1 |};
                   {| Key := "tableTags"; Value := 0 |};
                   {| Key := "words"; Value := 19 |};
                   {| Key := "numInnerLinks"; Value := 2 |};
                   {| Key := "wordsNotInLinks"; Value := 18 |};
                   {| Key := "div#x"; Value := 18 |};
                   {| Key := "div#x aside.foo"; Value := 17 |}])
    as (ps & w' & Hrun' & Hcounts)
    by (do 2 eexists; split; [vm_compute; reflexivity | vm_compute; reflexivity]).
  rewrite Hrun in Hrun'. injection Hrun' as <- _. exact Hcounts.
Defined.

(** ** The blocks of the statistics *)








Section BlockFacts.
Context {E : Externals}.


End BlockFacts.


(** ** The handler of the blog route *)

(** The compact text of a page spells its cached flag. *)
Lemma Encode_cached (page : Page) :
  exists before after,
    encoder.Encode page
    = before +:+ (dquote +:+ "cached" +:+ dquote +:+ ":"
                  +:+ (if p_Cached page then "true" else "false")) +:+ after.
Proof.
  unfold encoder.Encode, json.ofPage. cbn [encoder.compact].
  exists ("{" +:+ json.encodeString "uri" +:+ ":" +:+ json.encodeString (p_Uri page)
          +:+ "," +:+ json.encodeString "exists" +:+ ":"
          +:+ encoder.compact (json.Bool (p_Exists page)) +:+ ",").
  eexists. rewrite !append_assoc. repeat f_equal.
Qed.

Section HandlerFacts.
Context {E : Externals}.

(** What the handler answers when it answers: the header [cached], the
    content type, and the page as one line of JSON.  The header says [redis]
    exactly when the page in the body is marked as cached, and it never does
    for the cache mode [refresh]; every other cache mode, the empty one
    included, reads through the cache. *)
Theorem homePage_answer (vars : gmap string string) (w : World)
    (calls : list WriterCall) (w' : World) :
  homePage vars w = go.Returned (calls, w') ->
  exists (page : Page) (isCached : bool),
    readBlogPage (routeVar vars "url") (routeVar vars "scheme")
      (negb (String.eqb (routeVar vars "cacheMode") "refresh")) w
    = go.Returned ((page, isCached), w')
    /\ calls = [SetHeader "cached" (if isCached then "redis" else "-");
                SetHeader "Content-Type" "application/json; charset=UTF-8";
                Write (encoder.Encode page)]
    /\ p_Cached page = isCached
    /\ (routeVar vars "cacheMode" = "refresh" -> isCached = false)
    /\ exists before after,
         encoder.Encode page
         = before +:+ (dquote +:+ "cached" +:+ dquote +:+ ":"
                       +:+ (if isCached then "true" else "false")) +:+ after.
Proof.
  unfold homePage, mbind, M_bind.
  destruct (readBlogPage _ _ _ w) as [[[page isCached] w1]|msg] eqn:Hrun; [|discriminate].
  intros [= <- <-]. exists page, isCached.
  assert (p_Cached page = isCached
          /\ (routeVar vars "cacheMode" = "refresh" -> isCached = false)) as [Hflag Hmode].
  { destruct (readBlogPage_returned _ _ _ _ _ _ Hrun)
      as [(stored & Hcached & _ & [= -> ->] & _) | (data & Hlive & [= -> ->] & _)].
    - split; [reflexivity|]. intros Hrefresh. rewrite Hrefresh in Hcached. discriminate.
    - destruct (readLiveBlogPage_returned _ _ _ _ Hlive) as (_ & Hflag & _).
      split; [exact Hflag | reflexivity]. }
  repeat split; try assumption.
  rewrite <- Hflag. apply Encode_cached.
Qed.

End HandlerFacts.

Lemma homePage_answer_witness :
  exists calls w' page,
    homePage (E := Sample.externals) Cases.refreshVars Sample.brokenStore
    = go.Returned (calls, w')
    /\ calls = [SetHeader "cached" "-";
                SetHeader "Content-Type" "application/json; charset=UTF-8";
                Write (encoder.Encode page)]
    /\ p_Cached page = false.
Proof.
  assert (exists calls w',
             homePage (E := Sample.externals) Cases.refreshVars Sample.brokenStore
             = go.Returned (calls, w')) as (calls & w' & Hrun)
    by (do 2 eexists; vm_compute; reflexivity).
  destruct (homePage_answer (E := Sample.externals) _ _ _ _ Hrun)
    as (page & isCached & _ & Hcalls & Hflag & Hmode & _).
  assert (isCached = false) as -> by (apply Hmode; vm_compute; reflexivity).
  exists calls, w', page. split; [exact Hrun|]. split; [exact Hcalls | exact Hflag].
Defined.

(** ** Counting elements of a document nothing was detached from *)

Lemma sameRef_eq (a b : dom.ref) : dom.sameRef a b = true <-> a = b.
Proof.
  revert b. induction a as [|i a IH]; intros [|j b]; cbn [dom.sameRef];
    try (split; [discriminate | congruence]); [split; reflexivity|].
  rewrite andb_true_iff, Nat.eqb_eq, IH. split; [intros [-> ->] | intros [= -> ->]]; auto.
Qed.

Lemma isIn_elem (r : dom.ref) (refs : list dom.ref) :
  dom.isIn r refs = true <-> r ∈ refs.
Proof.
  unfold dom.isIn. rewrite existsb_exists. split.
  - intros (r' & Hin & Hsame). apply sameRef_eq in Hsame as ->.
    apply list_elem_of_In, Hin.
  - intros Hin. exists r. split; [apply list_elem_of_In, Hin | apply sameRef_eq; reflexivity].
Qed.

Lemma matchAll_matchBelow (detached : list dom.ref) (tags : list string) (r : dom.ref)
    (tag : string) (attrs : list (string * string)) (cs : list Node) :
  dom.matchAll detached tags r (ElementNode tag attrs cs) =
  (if goquery.hasTag tags (ElementNode tag attrs cs)
   then [(r, ElementNode tag attrs cs)] else [])
  ++ dom.matchBelow detached tags r 0 cs.
Proof.
  cbn [dom.matchAll]. f_equal. generalize 0%nat.
  induction cs as [|c cs IH]; intros i; [reflexivity|].
  cbn [dom.matchBelow]. rewrite <- IH. reflexivity.
Qed.

Lemma matchBelow_distinct (detached : list dom.ref) (tags : list string) (r : dom.ref)
    (cs : list Node) :
  Forall (fun c => forall r',
            Forall (fun n => exists k, fst n = r' ++ k) (dom.matchAll detached tags r' c)
            /\ NoDup (map fst (dom.matchAll detached tags r' c))) cs ->
  forall i,
    Forall (below r i) (dom.matchBelow detached tags r i cs)
    /\ NoDup (map fst (dom.matchBelow detached tags r i cs)).
Proof.
  induction 1 as [|c cs Hc _ IH]; intros i; [split; constructor|].
  cbn [dom.matchBelow].
  destruct (IH (S i)) as [Hrest Hnodup].
  destruct (Hc (r ++ [i])) as [Hchild Hchild_nodup].
  assert (Forall (below r i)
            (if dom.isIn (r ++ [i]) detached then []
             else dom.matchAll detached tags (r ++ [i]) c)) as Hhere.
  { destruct (dom.isIn _ _); [constructor|].
    eapply Forall_impl; [exact Hchild|].
    intros n [k Hk]. exists i, k. split; [lia|].
    rewrite <- app_assoc in Hk. exact Hk. }
  split.
  - apply Forall_app. split; [exact Hhere|].
    eapply Forall_impl; [exact Hrest|].
    intros n (j & k & Hj & Hk). exists j, k. split; [lia | exact Hk].
  - rewrite map_app. apply NoDup_app. repeat split.
    + destruct (dom.isIn _ _); [constructor | exact Hchild_nodup].
    + intros a Ha Hb.
      apply list_elem_of_In, in_map_iff in Ha as (n & <- & Hn).
      apply list_elem_of_In, in_map_iff in Hb as (m & Hsame & Hm).
      destruct (dom.isIn _ _); [destruct Hn|].
      rewrite Forall_forall in Hchild, Hrest.
      destruct (Hchild n (proj2 (list_elem_of_In _ _) Hn)) as [k Hk].
      destruct (Hrest m (proj2 (list_elem_of_In _ _) Hm)) as (j & k' & Hj & Hk').
      unfold dom.pointer, dom.ref in *.
      rewrite Hk, Hk', <- app_assoc in Hsame.
      apply app_inv_head in Hsame. injection Hsame as Hij _. lia.
    + exact Hnodup.
Qed.

Lemma matchAll_distinct (detached : list dom.ref) (tags : list string) (n : Node) :
  forall r,
    Forall (fun m => exists k, fst m = r ++ k) (dom.matchAll detached tags r n)
    /\ NoDup (map fst (dom.matchAll detached tags r n)).
Proof.
  induction n as [data|data|data|tag attrs cs IH] using Node_children_ind; intros r;
    try (cbn; split; constructor).
  rewrite matchAll_matchBelow.
  destruct (matchBelow_distinct detached tags r cs IH 0) as [Hbelow Hnodup].
  assert (Forall (fun m : dom.pointer => exists k, fst m = r ++ k)
            (if goquery.hasTag tags (ElementNode tag attrs cs)
             then [(r, ElementNode tag attrs cs)] else [])) as Hself.
  { destruct (goquery.hasTag _ _); repeat constructor.
    exists []. cbn [fst]. rewrite app_nil_r. reflexivity. }
  split.
  - apply Forall_app. split; [exact Hself|].
    eapply Forall_impl; [exact Hbelow|]. intros m (j & k & _ & Hk). eauto.
  - rewrite map_app. apply NoDup_app. repeat split; [| |exact Hnodup].
    + destruct (goquery.hasTag _ _); [apply NoDup_singleton | constructor].
    + intros a Ha Hb. destruct (goquery.hasTag _ _); [|inversion Ha].
      apply list_elem_of_singleton in Ha as ->. cbn [fst] in Hb.
      apply list_elem_of_In, in_map_iff in Hb as (m & Hsame & Hm).
      rewrite Forall_forall in Hbelow.
      destruct (Hbelow m (proj2 (list_elem_of_In _ _) Hm)) as (j & k & _ & Hk).
      unfold dom.pointer, dom.ref in *.
      rewrite Hk in Hsame. rewrite <- (app_nil_r r) in Hsame at 2.
      apply app_inv_head in Hsame. discriminate.
Qed.

Lemma appendWithoutDuplicates_distinct (nodes : list dom.pointer) :
  forall target,
    NoDup (map fst (target ++ nodes)) ->
    dom.appendWithoutDuplicates target nodes = target ++ nodes.
Proof.
  induction nodes as [|n nodes IH]; intros target Hnodup; [symmetry; apply app_nil_r|].
  cbn [dom.appendWithoutDuplicates].
  destruct (dom.isIn (fst n) (map fst target)) eqn:Hseen.
  - apply isIn_elem in Hseen. rewrite map_app in Hnodup.
    apply NoDup_app in Hnodup as (_ & Hdisjoint & _).
    destruct (Hdisjoint _ Hseen). cbn [map]. left.
  - rewrite IH; rewrite <- app_assoc; [reflexivity | exact Hnodup].
Qed.

Lemma matchAll_values (tags : list string) (n : Node) :
  forall r, map snd (dom.matchAll [] tags r n) = goquery.MatchAll tags n.
Proof.
  induction n as [data|data|data|tag attrs cs IH] using Node_children_ind; intros r;
    try reflexivity.
  rewrite matchAll_matchBelow, MatchAll_element, map_app. f_equal.
  - destruct (goquery.hasTag _ _); reflexivity.
  - unfold goquery.FindIn. generalize 0%nat.
    induction IH as [|c cs Hc _ IHcs]; intros i; [reflexivity|].
    cbn [dom.matchBelow flat_map dom.isIn existsb]. rewrite map_app, Hc, IHcs. reflexivity.
Qed.

(** As long as nothing is detached, selecting from the document by address
    selects the elements [FindIn] selects, in the same order. *)
Lemma FindInDocument_values (roots : list Node) (tags : list string) :
  map snd (dom.FindInDocument roots [] tags) = goquery.FindIn roots tags.
Proof.
  unfold dom.FindInDocument.
  assert (Forall (fun c => forall r',
                    Forall (fun n => exists k, fst n = r' ++ k) (dom.matchAll [] tags r' c)
                    /\ NoDup (map fst (dom.matchAll [] tags r' c))) roots) as Hroots
    by (apply Forall_forall; intros c _ r'; apply matchAll_distinct).
  rewrite appendWithoutDuplicates_distinct
    by (cbn [app]; exact (proj2 (matchBelow_distinct [] tags [] roots Hroots 0))).
  cbn [app]. unfold goquery.FindIn. generalize 0%nat. generalize (@nil nat).
  induction roots as [|c cs IH]; intros r i; [reflexivity|].
  cbn [dom.matchBelow flat_map dom.isIn existsb]. rewrite map_app, matchAll_values.
  f_equal. apply IH. inversion Hroots; assumption.
Qed.

Section TagCounts.
Context {E : Externals}.

(** The first four counts of an address that opens are those of the document
    as it was fetched: its resolvable links and its article, section and
    table elements.  The count of articles is the number of candidates the
    article extractor works on for the same document, so a count above a
    hundred tells that the blog route fails on it. *)
Theorem discoverLivePage_tag_counts (uri : string) (w : World) (dom : list Node)
    (ps : PageStats) (w' : World) :
  web w uri = Some dom ->
  discoverLivePage uri w = go.Returned (ps, w') ->
  let bow := {| Dom := dom; PageUrl := uri |} in
  take 4 (go.elems (ps_Counts ps))
  = [{| Key := "links"; Value := Z.of_nat (length (surf.Links bow)) |};
     {| Key := "articleTags"; Value := Z.of_nat (length (candidates bow)) |};
     {| Key := "sectionTags";
        Value := Z.of_nat (length (goquery.FindIn dom ["section"])) |};
     {| Key := "tableTags";
        Value := Z.of_nat (length (goquery.FindIn dom ["table"])) |}]
  /\ ((100 < length (candidates bow))%nat ->
      readLiveBlogPage uri w = go.Panicked "slice bounds out of range").
Proof.
  intros Hweb Hrun. cbv zeta. split.
  - unfold discoverLivePage, mbind, M_bind, Open, mret, M_ret in Hrun.
    rewrite Hweb in Hrun. cbn [option_map Dom] in Hrun. cbv zeta in Hrun.
    erewrite countBlocks_entries in Hrun by reflexivity.
    injection Hrun as <- _. cbn [ps_Counts go.elems take app].
    unfold candidates. rewrite length_map. cbn [Dom].
    rewrite <- !FindInDocument_values, !length_map. reflexivity.
  - intros Hmany. exact (readLiveBlogPage_crowded uri w dom Hweb Hmany).
Qed.

End TagCounts.

Lemma discoverLivePage_tag_counts_witness :
  exists ps w',
    discoverLivePage (E := Sample.externals) "http://example.com/stats" Cases.statsWorld
    = go.Returned (ps, w')
    /\ take 4 (go.elems (ps_Counts ps))
       = [{| Key := "links"; Value := 2 |}; {| Key := "articleTags"; Value := 0 |};
          {| Key := "sectionTags"; Value := 1 |}; {| Key := "tableTags"; Value := 0 |}].
Proof.
  assert (exists ps w',
             discoverLivePage (E := Sample.externals) "http://example.com/stats"
               Cases.statsWorld = go.Returned (ps, w')) as (ps & w' & Hrun)
    by (do 2 eexists; vm_compute; reflexivity).
  exists ps, w'. split; [exact Hrun|].
  rewrite (proj1 (discoverLivePage_tag_counts (E := Sample.externals)
                    "http://example.com/stats" Cases.statsWorld
                    (Sample.document Cases.statsBody) ps w' eq_refl Hrun)).
  vm_compute. reflexivity.
Defined.

(** ** Parents that carry an id or a class *)

Lemma HasPrefix_empty (s : string) : strings.HasPrefix s "" = true.
Proof. destruct s; reflexivity. Qed.

Lemma Contains_byte (s : string) (c : ascii) :
  strings.Contains s (String c EmptyString) = strings.ContainsByte s c.
Proof.
  induction s as [|a s IH]; [reflexivity|].
  cbn [strings.Contains strings.HasPrefix strings.ContainsByte].
  rewrite IH, HasPrefix_empty, (Ascii.eqb_sym c a).
  destruct (Ascii.eqb a c); reflexivity.
Qed.

Lemma ContainsByte_TrimLeft (s : string) (c : ascii) :
  c <> " "%char ->
  strings.ContainsByte (strings.TrimLeft s " ") c = strings.ContainsByte s c.
Proof.
  intros Hc. induction s as [|a s IH]; [reflexivity|].
  cbn [strings.TrimLeft strings.ContainsByte orb].
  destruct (Ascii.eqb_spec a " ") as [->|Ha]; cbn [orb]; [|reflexivity].
  rewrite IH. destruct (Ascii.eqb_spec c " "); [contradiction | reflexivity].
Qed.

Lemma ContainsByte_TrimRight (s : string) (c : ascii) :
  c <> " "%char ->
  strings.ContainsByte (strings.TrimRight s " ") c = strings.ContainsByte s c.
Proof.
  intros Hc. induction s as [|a s IH]; [reflexivity|].
  cbn [strings.TrimRight]. change (strings.ContainsByte (String a s) c)
    with (Ascii.eqb c a || strings.ContainsByte s c). rewrite <- IH.
  destruct (strings.TrimRight s " ") as [|b kept]; [|reflexivity].
  cbn [strings.ContainsByte orb].
  destruct (Ascii.eqb_spec a " ") as [->|Ha]; cbn [orb strings.ContainsByte]; [|reflexivity].
  destruct (Ascii.eqb_spec c " "); [contradiction | reflexivity].
Qed.

Lemma Contains_ToPath (cs : ClassesIdSet) (c : ascii) :
  c <> " "%char ->
  strings.ContainsByte (fragment cs) c = true ->
  strings.Contains (ToPath cs) (String c EmptyString) = true.
Proof.
  intros Hc Hfragment. rewrite Contains_byte. unfold ToPath, strings.Trim.
  rewrite ContainsByte_TrimRight, ContainsByte_TrimLeft by exact Hc.
  unfold strings.Join. cbn [String.concat].
  rewrite !ContainsByte_append, Hfragment, !orb_true_r. reflexivity.
Qed.

Lemma fragment_marker (n : Node) (ancestors : list Node) :
  (is_Some (goquery.Attr n "class") ->
   strings.ContainsByte (fragment (buildClassesIdSet n ancestors)) "." = true)
  /\ (forall id, goquery.Attr n "id" = Some id -> id <> "" ->
      strings.ContainsByte (fragment (buildClassesIdSet n ancestors)) "#" = true).
Proof.
  rewrite fragment_buildClassesIdSet. unfold nodeFragment, fragment.
  cbn [buildClassesIdSet Id Classes TagName]. split.
  - intros [val Hval]. unfold extractClasses. rewrite Hval.
    pose proof (splitFrom_length " " val 0 EmptyString) as Hlen.
    fold (strings.Split val " ") in Hlen.
    assert ((0 <? length (strings.Split val " "))%nat = true) as ->
      by (apply Nat.ltb_lt; lia).
    destruct (0 <? String.length _)%nat; unfold strings.Join; cbn [app String.concat];
      rewrite !ContainsByte_append; cbn [strings.ContainsByte String.append];
      rewrite ?orb_true_r; reflexivity.
  - intros id Hid Hne. rewrite Hid.
    assert ((0 <? String.length id)%nat = true) as ->
      by (destruct id; [congruence | reflexivity]).
    destruct (0 <? length (extractClasses n))%nat; unfold strings.Join;
      cbn [app String.concat];
      rewrite !ContainsByte_append; cbn [strings.ContainsByte String.append];
      rewrite ?orb_true_r; reflexivity.
Qed.

(** A parent other than [html] and [body] that has a class attribute, be it
    empty, or a non-empty id is never skipped: its whole breadcrumb is the
    parent path of its children. *)
Theorem buildClassesIdSet_keeps_marked_parent (selection parent : Node) (up : list Node) :
  notRoot parent ->
  is_Some (goquery.Attr parent "class")
  \/ (exists id, goquery.Attr parent "id" = Some id /\ id <> "") ->
  ParentPath (buildClassesIdSet selection (parent :: up)) = buildPath parent up
  /\ buildPath selection (parent :: up)
     = strings.Trim (strings.Join [buildPath parent up; nodeFragment selection] " ") " ".
Proof.
  intros Hroot Hmarked.
  assert (ParentPath (buildClassesIdSet selection (parent :: up)) = buildPath parent up)
    as Hkept.
  { rewrite ParentPath_cons. cbv zeta. unfold notRoot in Hroot. rewrite Hroot.
    assert (noMarker (buildPath parent up) = false) as ->; [|reflexivity].
    unfold noMarker, buildPath.
    destruct (fragment_marker parent up) as [Hclass Hid].
    destruct Hmarked as [Hcls | (id & Hattr & Hne)].
    - rewrite (Contains_ToPath _ "."%char); [reflexivity | discriminate | exact (Hclass Hcls)].
    - rewrite (Contains_ToPath _ "#"%char);
        [apply andb_false_r | discriminate | exact (Hid id Hattr Hne)]. }
  split; [exact Hkept|]. rewrite buildPath_ParentPath, Hkept. reflexivity.
Qed.

Lemma buildClassesIdSet_keeps_marked_parent_witness :
  exists selection parent up,
    locate Sample.nested [] [1; 0; 0]%nat = Some (selection, parent :: up)
    /\ goquery.NodeName parent = "section"
    /\ goquery.Attr parent "id" = Some "x"
    /\ ParentPath (buildClassesIdSet selection (parent :: up)) = buildPath parent up
    /\ buildPath selection (parent :: up) = "section#x div".
Proof.
  assert (exists selection parent up,
             locate Sample.nested [] [1; 0; 0]%nat = Some (selection, parent :: up)
             /\ goquery.NodeName parent = "section"
             /\ goquery.Attr parent "id" = Some "x"
             /\ buildPath selection (parent :: up) = "section#x div")
    as (selection & parent & up & Hat & Hname & Hid & Hpath).
  { do 3 eexists. split; [vm_compute; reflexivity|]. vm_compute. repeat split. }
  exists selection, parent, up.
  split; [exact Hat|]. split; [exact Hname|]. split; [exact Hid|].
  split; [|exact Hpath].
  refine (proj1 (buildClassesIdSet_keeps_marked_parent selection parent up _ _)).
  - unfold notRoot. rewrite Hname. reflexivity.
  - right. exists "x". split; [exact Hid | discriminate].
Defined.
